(** * Zipkin spans of go-kit: [tracing/zipkin/span.go]

    A shallow embedding of the span data model, the binary-annotation
    encoder, the span options, the child-span factory and the Thrift
    encoder, followed by the properties proved about them.

    Conventions of the embedding.
    - A Go integer of any width is a [Z]; a conversion [uint32(v)],
      [int32(v)], ... is the wrap-around written out.
    - A [[]byte] is a [list byte]; a Go [string] is a [string], and
      [[]byte(s)] is [list_byte_of_string s].
    - A Go pointer is a [ptr]: [None] is [nil], [Some l] is the address [l]
      of an object in the heap of its type.  Heaps are lists, an object is
      allocated at the end of its heap.
    - Code with effects (the clock, the id generator, the heaps, the
      collector) lives in the monad [M]: a function of the [World] that
      either panics or returns a result and the next [World]. *)

From Stdlib Require Import ZArith Lia List.
From Stdlib.Strings Require Import Byte String Ascii.
From stdpp Require Import base option list strings.

Local Open Scope Z_scope.

(** ** Machine integers *)

Definition uint32 (v : Z) : Z := v mod 2 ^ 32.
Definition uint64 (v : Z) : Z := v mod 2 ^ 64.
Definition int16 (v : Z) : Z := (v + 2 ^ 15) mod 2 ^ 16 - 2 ^ 15.
Definition int32 (v : Z) : Z := (v + 2 ^ 31) mod 2 ^ 32 - 2 ^ 31.
Definition int64 (v : Z) : Z := (v + 2 ^ 63) mod 2 ^ 64 - 2 ^ 63.

(** The values of a signed, respectively unsigned, integer type of the
    given width. *)
Definition in_int (bits v : Z) : Prop := - 2 ^ (bits - 1) <= v < 2 ^ (bits - 1).
Definition in_uint (bits v : Z) : Prop := 0 <= v < 2 ^ bits.

(** [byte(v)]: the low eight bits of [v]. *)
Definition byte_of_Z (v : Z) : byte :=
  default x00 (Byte.of_N (Z.to_N (v mod 256))).

Definition Z_of_byte (b : byte) : Z := Z.of_N (Byte.to_N b).

(** [make([]byte, n)]: [n] zero bytes. *)
Definition make_bytes (n : nat) : list byte := replicate n x00.

(** ** [encoding/binary], the [BigEndian] byte order *)

Module binary.

(** [PutUint32(b, v)]: the bounds check [_ = b[3]] panics ([None]) on a
    buffer shorter than four bytes; the bytes past the fourth are left
    as they are. *)
Definition PutUint32 (b : list byte) (v : Z) : option (list byte) :=
  match b !! 3%nat with
  | None => None
  | Some _ =>
      let b := <[0%nat := byte_of_Z (Z.shiftr v 24)]> b in
      let b := <[1%nat := byte_of_Z (Z.shiftr v 16)]> b in
      let b := <[2%nat := byte_of_Z (Z.shiftr v 8)]> b in
      let b := <[3%nat := byte_of_Z v]> b in
      Some b
  end.

Definition PutUint64 (b : list byte) (v : Z) : option (list byte) :=
  match b !! 7%nat with
  | None => None
  | Some _ =>
      let b := <[0%nat := byte_of_Z (Z.shiftr v 56)]> b in
      let b := <[1%nat := byte_of_Z (Z.shiftr v 48)]> b in
      let b := <[2%nat := byte_of_Z (Z.shiftr v 40)]> b in
      let b := <[3%nat := byte_of_Z (Z.shiftr v 32)]> b in
      let b := <[4%nat := byte_of_Z (Z.shiftr v 24)]> b in
      let b := <[5%nat := byte_of_Z (Z.shiftr v 16)]> b in
      let b := <[6%nat := byte_of_Z (Z.shiftr v 8)]> b in
      let b := <[7%nat := byte_of_Z v]> b in
      Some b
  end.

(** [Uint32(b)]: panics ([None]) on a buffer shorter than four bytes. *)
Definition Uint32 (b : list byte) : option Z :=
  match b with
  | b0 :: b1 :: b2 :: b3 :: _ =>
      Some (Z.lor (Z.lor (Z.lor (Z_of_byte b3) (Z.shiftl (Z_of_byte b2) 8))
                         (Z.shiftl (Z_of_byte b1) 16))
                  (Z.shiftl (Z_of_byte b0) 24))
  | _ => None
  end.

Definition Uint64 (b : list byte) : option Z :=
  match b with
  | b0 :: b1 :: b2 :: b3 :: b4 :: b5 :: b6 :: b7 :: _ =>
      Some (Z.lor (Z.lor (Z.lor (Z.lor (Z.lor (Z.lor (Z.lor
              (Z_of_byte b7)
              (Z.shiftl (Z_of_byte b6) 8))
              (Z.shiftl (Z_of_byte b5) 16))
              (Z.shiftl (Z_of_byte b4) 24))
              (Z.shiftl (Z_of_byte b3) 32))
              (Z.shiftl (Z_of_byte b2) 40))
              (Z.shiftl (Z_of_byte b1) 48))
              (Z.shiftl (Z_of_byte b0) 56))
  | _ => None
  end.

End binary.

(** ** [strconv] *)

Module strconv.

Definition digit (c : ascii) : option Z :=
  let n := Z.of_N (N_of_ascii c) in
  if (48 <=? n) && (n <=? 57) then Some (n - 48) else None.

(** The decimal digits of [s] read from the left, starting from [acc];
    [None] on a character that is not a digit. *)
Fixpoint digits (s : string) (acc : Z) : option Z :=
  match s with
  | EmptyString => Some acc
  | String c s' =>
      match digit c with
      | Some d => digits s' (10 * acc + d)
      | None => None
      end
  end.

(** [ParseInt(s, 10, bitSize)], [None] when it returns an error: an
    optional sign, then at least one decimal digit and nothing else, and
    a value that fits a signed integer of [bitSize] bits. *)
Definition ParseInt10 (s : string) (bitSize : Z) : option Z :=
  match s with
  | EmptyString => None
  | String c s' =>
      let neg := Ascii.eqb c "-" in
      let s1 := if Ascii.eqb c "+" || neg then s' else s in
      match s1 with
      | EmptyString => None
      | _ =>
          match digits s1 0 with
          | None => None
          | Some un =>
              let cutoff := 2 ^ (bitSize - 1) in
              if negb neg && (cutoff <=? un) then None
              else if neg && (cutoff <? un) then None
              else Some (if neg then - un else un)
          end
      end
  end.

End strconv.

(** ** [net] *)

Module net.

(** [net.IP] is a byte slice; [nil] is [None] where it matters. *)
Abbreviation IP := (list byte).

Definition isZeros (p : IP) : bool := forallb (Byte.eqb x00) p.

(** [ip.To4()]: a four-byte address is returned as it is, a sixteen-byte
    address with the IPv4-in-IPv6 prefix yields its last four bytes
    [ip[12:16]], any other slice yields [nil]. *)
Definition To4 (ip : IP) : option IP :=
  if Nat.eqb (length ip) 4 then Some ip
  else if Nat.eqb (length ip) 16
          && isZeros (take 10 ip)
          && from_option (Byte.eqb xff) false (ip !! 10%nat)
          && from_option (Byte.eqb xff) false (ip !! 11%nat)
  then Some (take 4 (drop 12 ip))
  else None.

End net.

(** ** Pointers *)

(** A Go pointer: [None] is [nil], [Some l] the address of an object. *)
Abbreviation ptr := (option nat).

(** ** The Thrift types of [zipkincore] *)

(** Modelled from the spec: the generated package
    [_thrift/gen-go/zipkincore] is not among the sources.  Its structures
    are the wire format of section 6 of the specification, with the fields
    [Encode] fills; the annotation types are those of the specification
    and the 16-bit type the comment in [AnnotateBinary] names.  A field
    that is a slice is an [option]: [None] is the [nil] slice, [Some []] a
    slice of length zero.  An element of such a slice is a pointer to a
    freshly built structure, [None] when it is [nil]; [ParentId] is a
    pointer to an integer, [None] when the field is absent. *)
Module zipkincore.

Record Endpoint : Type := mkEndpoint {
  Ipv4 : Z;
  Port : Z;
  ServiceName : string
}.

(** [zipkincore.NewEndpoint()]: the zero value. *)
Definition NewEndpoint : Endpoint :=
  {| Ipv4 := 0; Port := 0; ServiceName := "" |}.

Inductive AnnotationType : Type :=
| AnnotationType_BOOL
| AnnotationType_BYTES
| AnnotationType_I16
| AnnotationType_I32
| AnnotationType_I64
| AnnotationType_DOUBLE
| AnnotationType_STRING.

Record Annotation : Type := mkAnnotation {
  Timestamp : Z;
  Value : string;
  Host : ptr
}.

Record BinaryAnnotation : Type := mkBinaryAnnotation {
  Key : string;
  BinaryValue : list byte;
  BinaryType : AnnotationType;
  BinaryHost : ptr
}.

Record Span : Type := mkSpan {
  TraceId : Z;
  Name : string;
  Id : Z;
  ParentId : option Z;
  Annotations : option (list (option Annotation));
  BinaryAnnotations : option (list (option BinaryAnnotation));
  Debug : bool
}.

Definition with_ParentId (p : option Z) (zs : Span) : Span :=
  mkSpan (TraceId zs) (Name zs) (Id zs) p (Annotations zs)
    (BinaryAnnotations zs) (Debug zs).

Definition with_Annotations (l : option (list (option Annotation)))
  (zs : Span) : Span :=
  mkSpan (TraceId zs) (Name zs) (Id zs) (ParentId zs) l
    (BinaryAnnotations zs) (Debug zs).

Definition with_BinaryAnnotations
  (l : option (list (option BinaryAnnotation))) (zs : Span) : Span :=
  mkSpan (TraceId zs) (Name zs) (Id zs) (ParentId zs) (Annotations zs)
    l (Debug zs).

End zipkincore.

Import zipkincore (AnnotationType(..)).

(** ** The span *)

(** A [time.Time], by its [UnixNano()]. *)
Abbreviation Time := Z.

Record annotation : Type := mk_annotation {
  timestamp : Time;
  value : string;
  a_host : ptr            (* [host] *)
}.

Record binaryAnnotation : Type := mk_binaryAnnotation {
  key : string;
  b_value : list byte     (* [value] *);
  annotationType : AnnotationType;
  b_host : ptr            (* [host] *)
}.

Record Span : Type := mk_Span {
  host : ptr;
  methodName : string;
  traceID : Z;
  spanID : Z;
  parentSpanID : Z;
  annotations : list annotation;
  binaryAnnotations : list binaryAnnotation;
  debug : bool;
  sampled : bool;
  runSampler : bool
}.

(** Assignments to the fields of a span that the code writes. *)
Definition with_host (e : ptr) (s : Span) : Span :=
  mk_Span e (methodName s) (traceID s) (spanID s) (parentSpanID s)
    (annotations s) (binaryAnnotations s) (debug s) (sampled s) (runSampler s).

Definition with_annotations (l : list annotation) (s : Span) : Span :=
  mk_Span (host s) (methodName s) (traceID s) (spanID s) (parentSpanID s)
    l (binaryAnnotations s) (debug s) (sampled s) (runSampler s).

Definition with_binaryAnnotations (l : list binaryAnnotation) (s : Span) : Span :=
  mk_Span (host s) (methodName s) (traceID s) (spanID s) (parentSpanID s)
    (annotations s) l (debug s) (sampled s) (runSampler s).

Definition with_debug (b : bool) (s : Span) : Span :=
  mk_Span (host s) (methodName s) (traceID s) (spanID s) (parentSpanID s)
    (annotations s) (binaryAnnotations s) b (sampled s) (runSampler s).

Definition with_sampled (b : bool) (s : Span) : Span :=
  mk_Span (host s) (methodName s) (traceID s) (spanID s) (parentSpanID s)
    (annotations s) (binaryAnnotations s) (debug s) b (runSampler s).

(** ** The value of an [interface{}] *)

(** The dynamic types [AnnotateBinary] tells apart.  An integer carries
    its value.  Floating point is not modelled: a float is given by the
    64 bits that [math.Float64bits(float64(v))] returns for it, and a
    value of any other type by what [fmt.Sprintf("%+v", value)] prints for
    it, which in both cases is all the code reads of the value. *)
Inductive Value : Type :=
| V_bool (v : bool)
| V_bytes (v : list byte)
| V_byte (v : Z)
| V_int8 (v : Z)
| V_int16 (v : Z)
| V_uint16 (v : Z)
| V_int32 (v : Z)
| V_uint32 (v : Z)
| V_int64 (v : Z)
| V_int (v : Z)
| V_uint (v : Z)
| V_uint64 (v : Z)
| V_float32 (bits : Z)
| V_float64 (bits : Z)
| V_string (v : string)
| V_other (printed : string).

(** ** What the code takes from outside the file *)

(** The constants [ClientSend], [ClientReceive] and [ServerAddress] of the
    package, declared in another file; [net.SplitHostPort] and
    [net.LookupIP] ([None] when they return an error); the wall clock and
    the id generator [newID], each given by the results of its successive
    calls.  The resolver is taken to answer the same at every call: no
    property below compares the results of two lookups. *)
Class Env : Type := mkEnv {
  ClientSend : string;
  ClientReceive : string;
  ServerAddress : string;
  SplitHostPort : string -> option (string * string);
  LookupIP : string -> option (list net.IP);
  clock : nat -> Time;
  ids : nat -> Z
}.

(** ** The world *)

(** A [Collector] is an interface value: [None] is the [nil] interface,
    [Some c] the collector [c].  What a collector does with a span is not
    part of this file; the world records the calls of [Collect], in order,
    each with the collector and the span pointer it was given. *)
Abbreviation Collector := (option nat).

Record World : Type := mkWorld {
  spans : list Span;               (* the heap of [Span] objects *)
  endpoints : list zipkincore.Endpoint;   (* the heap of endpoints *)
  vars : list ptr;                 (* the [*Span] variables closures capture *)
  ticks : nat;                     (* calls of [time.Now] so far *)
  drawn : nat;                     (* calls of [newID] so far *)
  collected : list (nat * ptr)     (* the calls of [Collect] so far *)
}.

Definition with_spans (l : list Span) (w : World) : World :=
  mkWorld l (endpoints w) (vars w) (ticks w) (drawn w) (collected w).

Definition with_endpoints (l : list zipkincore.Endpoint) (w : World) : World :=
  mkWorld (spans w) l (vars w) (ticks w) (drawn w) (collected w).

Definition with_vars (l : list ptr) (w : World) : World :=
  mkWorld (spans w) (endpoints w) l (ticks w) (drawn w) (collected w).

Definition with_ticks (n : nat) (w : World) : World :=
  mkWorld (spans w) (endpoints w) (vars w) n (drawn w) (collected w).

Definition with_drawn (n : nat) (w : World) : World :=
  mkWorld (spans w) (endpoints w) (vars w) (ticks w) n (collected w).

Definition with_collected (l : list (nat * ptr)) (w : World) : World :=
  mkWorld (spans w) (endpoints w) (vars w) (ticks w) (drawn w) l.

(** ** The monad of effects *)

Inductive Res (A : Type) : Type :=
| Ok (a : A) (w : World)
| Panic.

Arguments Ok {A} a w.
Arguments Panic {A}.

Definition M (A : Type) : Type := World -> Res A.

Definition ret {A} (a : A) : M A := fun w => Ok a w.

Definition bind {A B} (m : M A) (k : A -> M B) : M B :=
  fun w => match m w with
           | Ok a w' => k a w'
           | Panic => Panic
           end.

Declare Scope go_scope.
Delimit Scope go_scope with go.
Notation "'let!' x ':=' m 'in' k" := (bind m (fun x => k))
  (at level 10, x pattern, m at level 100, k at level 200) : go_scope.
Notation "m ';;' k" := (bind m (fun _ => k))
  (at level 100, k at level 200, right associativity) : go_scope.

(** An [option] met where Go would panic on [None]. *)
Definition or_panic {A} (o : option A) : M A :=
  fun w => match o with Some a => Ok a w | None => Panic end.

Local Open Scope go_scope.

(** *** The heaps *)

(** [*s]: a [nil] pointer panics. *)
Definition deref (s : ptr) : M Span :=
  fun w => match s with
           | Some l => match spans w !! l with
                       | Some v => Ok v w
                       | None => Panic
                       end
           | None => Panic
           end.

(** [*s = v], as the code does it one field at a time. *)
Definition store (s : ptr) (v : Span) : M unit :=
  fun w => match s with
           | Some l => match spans w !! l with
                       | Some _ => Ok tt (with_spans (<[l := v]> (spans w)) w)
                       | None => Panic
                       end
           | None => Panic
           end.

(** [&Span{...}]: a new object, at the end of the heap. *)
Definition new_Span (v : Span) : M ptr :=
  fun w => Ok (Some (length (spans w))) (with_spans (spans w ++ [v]) w).

(** A new endpoint object. *)
Definition new_Endpoint (e : zipkincore.Endpoint) : M ptr :=
  fun w => Ok (Some (length (endpoints w)))
              (with_endpoints (endpoints w ++ [e]) w).

(** The endpoint a pointer leads to, if any. *)
Definition endpoint_at (w : World) (e : ptr) : option zipkincore.Endpoint :=
  match e with
  | Some l => endpoints w !! l
  | None => None
  end.

(** A variable of type [*Span] that a closure captures: its declaration,
    a read and an assignment. *)
Definition new_var (v : ptr) : M nat :=
  fun w => Ok (length (vars w)) (with_vars (vars w ++ [v]) w).

Definition read_var (x : nat) : M ptr :=
  fun w => match vars w !! x with
           | Some v => Ok v w
           | None => Panic
           end.

Definition write_var (x : nat) (v : ptr) : M unit :=
  fun w => match vars w !! x with
           | Some _ => Ok tt (with_vars (<[x := v]> (vars w)) w)
           | None => Panic
           end.

Section Zipkin.

Context {env : Env}.

(** [time.Now()] *)
Definition time_Now : M Time :=
  fun w => Ok (clock (ticks w)) (with_ticks (S (ticks w)) w).

(** Modelled from the spec: [newID] is defined in another file of the
    package.  It is "a source of effectively-unique 64-bit integers";
    the integers it returns, call after call, are the [ids] of the
    environment. *)
Definition newID : M Z :=
  fun w => Ok (ids (drawn w)) (with_drawn (S (drawn w)) w).

(** Modelled from the spec: the interface [Collector] is declared in
    another file of the package, and its implementations are "external
    collaborators" that expose [collect]; a call [collector.Collect(s)]
    is recorded in the world.  The error it returns is dropped by the
    caller; the call panics on a [nil] collector. *)
Definition Collect (collector : Collector) (s : ptr) : M unit :=
  fun w => match collector with
           | Some c => Ok tt (with_collected (collected w ++ [(c, s)]) w)
           | None => Panic
           end.

(** *** [makeEndpoint] *)

(** The loop [for i := range addrs] of [makeEndpoint]: [addr] is the
    first address that [To4] accepts, and [nil] if there is none. *)
Fixpoint first_To4 (addrs : list net.IP) (addr : option net.IP)
  : option net.IP :=
  match addrs with
  | [] => addr
  | ip :: rest =>
      let addr := net.To4 ip in
      match addr with
      | Some _ => addr
      | None => first_To4 rest addr
      end
  end.

Definition makeEndpoint (hostport serviceName : string) : M ptr :=
  match SplitHostPort hostport with
  | None => ret None
  | Some (host, port) =>
      match strconv.ParseInt10 port 16 with
      | None => ret None
      | Some portInt =>
          match LookupIP host with
          | None => ret None
          | Some addrs =>
              match first_To4 addrs None with
              | None => ret None
              | Some addr =>
                  let endpoint := zipkincore.NewEndpoint in
                  let! ip := or_panic (binary.Uint32 addr) in
                  let endpoint :=
                    zipkincore.mkEndpoint (int32 ip)
                      (zipkincore.Port endpoint)
                      (zipkincore.ServiceName endpoint) in
                  let endpoint :=
                    zipkincore.mkEndpoint (zipkincore.Ipv4 endpoint)
                      (int16 portInt)
                      (zipkincore.ServiceName endpoint) in
                  let endpoint :=
                    zipkincore.mkEndpoint (zipkincore.Ipv4 endpoint)
                      (zipkincore.Port endpoint)
                      serviceName in
                  new_Endpoint endpoint
              end
          end
      end
  end.

(** *** [NewSpan] and the accessors *)

Definition NewSpan (hostport serviceName methodName : string)
  (traceID spanID parentSpanID : Z) : M ptr :=
  let! e := makeEndpoint hostport serviceName in
  new_Span {| host := e;
              methodName := methodName;
              traceID := traceID;
              spanID := spanID;
              parentSpanID := parentSpanID;
              annotations := [];
              binaryAnnotations := [];
              debug := false;
              sampled := false;
              runSampler := true |}.

Definition TraceID (s : ptr) : M Z :=
  let! v := deref s in ret (traceID v).

Definition SpanID (s : ptr) : M Z :=
  let! v := deref s in ret (spanID v).

Definition ParentSpanID (s : ptr) : M Z :=
  let! v := deref s in ret (parentSpanID v).

Definition Sample (s : ptr) : M unit :=
  let! v := deref s in store s (with_sampled true v).

Definition SetDebug (s : ptr) : M unit :=
  let! v := deref s in store s (with_debug true v).


(** *** [Annotate] *)

Definition Annotate (s : ptr) (value : string) : M unit :=
  let! v := deref s in
  let! now := time_Now in
  store s (with_annotations
             (annotations v ++
                [{| timestamp := now; value := value; a_host := host v |}])
             v).

(** *** [AnnotateBinary] *)

(** The type switch of [AnnotateBinary]: the annotation type [a] and the
    bytes [b] for a value; [None] where a [Put] would panic.  In the
    case of a byte slice [b] is the caller's slice itself. *)
Definition type_switch (value : Value)
  : option (AnnotationType * list byte) :=
  match value with
  | V_bool v =>
      let b := [x00] in
      let b := if v then [x01] else b in
      Some (AnnotationType_BOOL, b)
  | V_bytes v =>
      Some (AnnotationType_BYTES, v)
  | V_byte v =>
      b ← binary.PutUint32 (make_bytes 4) (uint32 v);
      Some (AnnotationType_I32, b)
  | V_int8 v =>
      b ← binary.PutUint32 (make_bytes 4) (uint32 v);
      Some (AnnotationType_I32, b)
  | V_int16 v =>
      b ← binary.PutUint32 (make_bytes 4) (uint32 v);
      Some (AnnotationType_I32, b)
  | V_uint16 v =>
      b ← binary.PutUint32 (make_bytes 4) (uint32 v);
      Some (AnnotationType_I32, b)
  | V_int32 v =>
      b ← binary.PutUint32 (make_bytes 4) (uint32 v);
      Some (AnnotationType_I32, b)
  | V_uint32 v =>
      b ← binary.PutUint32 (make_bytes 4) (uint32 v);
      Some (AnnotationType_I32, b)
  | V_int64 v =>
      b ← binary.PutUint64 (make_bytes 8) (uint64 v);
      Some (AnnotationType_I64, b)
  | V_int v =>
      b ← binary.PutUint32 (make_bytes 8) (uint32 v);
      Some (AnnotationType_I32, b)
  | V_uint v =>
      b ← binary.PutUint32 (make_bytes 8) (uint32 v);
      Some (AnnotationType_I32, b)
  | V_uint64 v =>
      b ← binary.PutUint64 (make_bytes 8) (uint64 v);
      Some (AnnotationType_I64, b)
  | V_float32 bits =>
      b ← binary.PutUint64 (make_bytes 8) bits;
      Some (AnnotationType_DOUBLE, b)
  | V_float64 bits =>
      b ← binary.PutUint64 (make_bytes 8) bits;
      Some (AnnotationType_DOUBLE, b)
  | V_string v =>
      Some (AnnotationType_STRING, list_byte_of_string v)
  | V_other printed =>
      Some (AnnotationType_STRING, list_byte_of_string printed)
  end.

Definition AnnotateBinary (s : ptr) (key : string) (value : Value) : M unit :=
  let! (a, b) := or_panic (type_switch value) in
  let! v := deref s in
  store s (with_binaryAnnotations
             (binaryAnnotations v ++
                [{| key := key;
                    b_value := b;
                    annotationType := a;
                    b_host := host v |}])
             v).

Definition AnnotateString (s : ptr) (key value : string) : M unit :=
  let! v := deref s in
  store s (with_binaryAnnotations
             (binaryAnnotations v ++
                [{| key := key;
                    b_value := list_byte_of_string value;
                    annotationType := AnnotationType_STRING;
                    b_host := host v |}])
             v).

(** *** The options *)

(** The methods of the span that change it, as a caller of the package
    can call them on a span it holds. *)
Inductive Method : Type :=
| call_Annotate (value : string)
| call_AnnotateBinary (key : string) (value : Value)
| call_AnnotateString (key value : string)
| call_Sample
| call_SetDebug.

Definition call_method (m : Method) (s : ptr) : M unit :=
  match m with
  | call_Annotate value => Annotate s value
  | call_AnnotateBinary key value => AnnotateBinary s key value
  | call_AnnotateString key value => AnnotateString s key value
  | call_Sample => Sample s
  | call_SetDebug => SetDebug s
  end.

Fixpoint call_methods (body : list Method) (s : ptr) : M unit :=
  match body with
  | [] => ret tt
  | m :: rest => call_method m s;; call_methods rest s
  end.

(** A [SpanOption] is a function on a span, [func(s *Span)].  The file
    builds three kinds of them, each a closure over the arguments of its
    constructor.  The type is open: a caller passes functions of its own
    too.  Such a function, [Custom], is given by the calls it makes, in
    order, of the methods of the span [s] it receives, which is all a
    function written outside the package can do to [s]; a call of one of
    the three options inside it is that option passed on its own.  What
    such a function does besides (to other spans it holds, to the
    collector, a panic of its own) is not part of this model. *)
Inductive SpanOption : Type :=
| ServerAddr (hostport serviceName : string)
| Host (hostport serviceName : string)
| Debug (debug : bool)
| Custom (body : list Method).

(** The call [option(s)]: the body of the closure. *)
Definition call_option (option : SpanOption) (s : ptr) : M unit :=
  match option with
  | ServerAddr hostport serviceName =>
      let! e := makeEndpoint hostport serviceName in
      match e with
      | Some _ =>
          let! v := deref s in
          let host := host v in
          (let! v := deref s in store s (with_host e v));;
          AnnotateBinary s ServerAddress (V_bool true);;
          (let! v := deref s in store s (with_host host v))
      | None => ret tt
      end
  | Host hostport serviceName =>
      let! e := makeEndpoint hostport serviceName in
      match e with
      | Some _ => let! v := deref s in store s (with_host e v)
      | None => ret tt
      end
  | Debug debug =>
      let! v := deref s in store s (with_debug debug v)
  | Custom body =>
      call_methods body s
  end.

(** *** [NewChildSpan] *)

(** Modelled from the spec: [FromContext] and the context are not among
    the sources.  The carrier exposes
    [spanFromContext(context) -> (Span, found: bool)]; a context is
    given by the span it carries, if it carries one. *)
Record Context : Type := mkContext {
  ambient : option ptr
}.

Definition FromContext (ctx : Context) : ptr * bool :=
  match ambient ctx with
  | Some span => (span, true)
  | None => (None, false)
  end.

(** A [CollectFunc]: the function [func() {}] that does nothing, or the
    closure [collectFunc] of [NewChildSpan] over its variable
    [childSpan] and its argument [collector]. *)
Inductive CollectFunc : Type :=
| func_nothing
| func_collect (childSpan : nat) (collector : Collector).

(** The call [f()]. *)
Definition call_CollectFunc (f : CollectFunc) : M unit :=
  match f with
  | func_nothing => ret tt
  | func_collect childSpan collector =>
      let! c := read_var childSpan in
      match c with
      | Some _ =>
          Annotate c ClientReceive;;
          Collect collector c;;
          write_var childSpan None
      | None => ret tt
      end
  end.

(** The loop [for _, option := range options] of [NewChildSpan]. *)
Fixpoint call_options (options : list SpanOption) (childSpan : nat)
  : M unit :=
  match options with
  | [] => ret tt
  | option :: rest =>
      (let! c := read_var childSpan in call_option option c);;
      call_options rest childSpan
  end.

Definition NewChildSpan (ctx : Context) (collector : Collector)
  (methodName : string) (options : list SpanOption)
  : M (ptr * CollectFunc) :=
  let '(span, ok) := FromContext ctx in
  if negb ok then ret (None, func_nothing)
  else
    let! parent := deref span in
    let! id := newID in
    let! c := new_Span {| host := host parent;
                          methodName := methodName;
                          traceID := traceID parent;
                          spanID := id;
                          parentSpanID := spanID parent;
                          annotations := [];
                          binaryAnnotations := [];
                          debug := debug parent;
                          sampled := sampled parent;
                          runSampler := runSampler parent |} in
    let! childSpan := new_var c in
    (let! c := read_var childSpan in Annotate c ClientSend);;
    call_options options childSpan;;
    let collectFunc := func_collect childSpan collector in
    let! c := read_var childSpan in
    ret (c, collectFunc).

(** *** [Encode] *)

(** [dst[i] = x]: an index out of range panics ([None]). *)
Definition assign_index {A} (dst : list A) (i : nat) (x : A)
  : option (list A) :=
  match dst !! i with
  | Some _ => Some (<[i := x]> dst)
  | None => None
  end.

(** [for i, a := range l { dst[i] = &f(a) }], from index [i] on. *)
Fixpoint range_assign {A B} (f : A -> B) (i : nat) (l : list A)
  (dst : list (option B)) : option (list (option B)) :=
  match l with
  | [] => Some dst
  | a :: rest =>
      dst ← assign_index dst i (Some (f a));
      range_assign f (S i) rest dst
  end.

(** The structure built for one annotation; [/ 1e3] is the division of
    Go, which rounds towards zero. *)
Definition encode_annotation (a : annotation) : zipkincore.Annotation :=
  {| zipkincore.Timestamp := Z.quot (timestamp a) 1000;
     zipkincore.Value := value a;
     zipkincore.Host := a_host a |}.

Definition encode_binaryAnnotation (a : binaryAnnotation)
  : zipkincore.BinaryAnnotation :=
  {| zipkincore.Key := key a;
     zipkincore.BinaryValue := b_value a;
     zipkincore.BinaryType := annotationType a;
     zipkincore.BinaryHost := b_host a |}.

Definition Encode (s : ptr) : M zipkincore.Span :=
  let! v := deref s in
  let zs := {| zipkincore.TraceId := traceID v;
               zipkincore.Name := methodName v;
               zipkincore.Id := spanID v;
               zipkincore.ParentId := None;
               zipkincore.Annotations := None;
               zipkincore.BinaryAnnotations := None;
               zipkincore.Debug := debug v |} in
  let zs :=
    if negb (parentSpanID v =? 0)
    then zipkincore.with_ParentId (Some (parentSpanID v)) zs
    else zs in
  let! l :=
    or_panic (range_assign encode_annotation 0 (annotations v)
                (replicate (length (annotations v)) None)) in
  let zs := zipkincore.with_Annotations (Some l) zs in
  let! l :=
    or_panic (range_assign encode_binaryAnnotation 0 (binaryAnnotations v)
                (replicate (length (binaryAnnotations v)) None)) in
  let zs := zipkincore.with_BinaryAnnotations (Some l) zs in
  ret zs.

End Zipkin.

(** ** Definitions used to state the properties *)

(** The four, respectively eight, bytes of [v] in big-endian order. *)
Definition big_endian_32 (v : Z) : list byte :=
  [byte_of_Z (Z.shiftr v 24); byte_of_Z (Z.shiftr v 16);
   byte_of_Z (Z.shiftr v 8); byte_of_Z v].

Definition big_endian_64 (v : Z) : list byte :=
  [byte_of_Z (Z.shiftr v 56); byte_of_Z (Z.shiftr v 48);
   byte_of_Z (Z.shiftr v 40); byte_of_Z (Z.shiftr v 32);
   byte_of_Z (Z.shiftr v 24); byte_of_Z (Z.shiftr v 16);
   byte_of_Z (Z.shiftr v 8); byte_of_Z v].

(** Widening to 32 bits, on bit patterns: the pattern of [bits] bits of a
    value, and its extension by zeros or by copies of its sign bit. *)
Definition pattern (bits v : Z) : Z := v mod 2 ^ bits.

Definition zero_extend (bits p : Z) : Z := p.

Definition sign_extend (bits p : Z) : Z :=
  if 2 ^ (bits - 1) <=? p then p + (2 ^ 32 - 2 ^ bits) else p.

Definition widen (signed : bool) (bits v : Z) : Z :=
  if signed then sign_extend bits (pattern bits v)
  else zero_extend bits (pattern bits v).

(** The integer values of at most 32 bits that [AnnotateBinary] tells
    apart, each with its signedness, its width and its value. *)
Inductive small_integer : Value -> bool -> Z -> Z -> Prop :=
| small_byte v : in_uint 8 v -> small_integer (V_byte v) false 8 v
| small_int8 v : in_int 8 v -> small_integer (V_int8 v) true 8 v
| small_int16 v : in_int 16 v -> small_integer (V_int16 v) true 16 v
| small_uint16 v : in_uint 16 v -> small_integer (V_uint16 v) false 16 v
| small_int32 v : in_int 32 v -> small_integer (V_int32 v) true 32 v
| small_uint32 v : in_uint 32 v -> small_integer (V_uint32 v) false 32 v.

(** The 64-bit integer values. *)
Inductive long_integer : Value -> bool -> Z -> Prop :=
| long_int64 v : in_int 64 v -> long_integer (V_int64 v) true v
| long_uint64 v : in_uint 64 v -> long_integer (V_uint64 v) false v.

(** The integer a big-endian bit pattern of the given width stands for. *)
Definition read_as (signed : bool) (bits u : Z) : Z :=
  if signed then (u + 2 ^ (bits - 1)) mod 2 ^ bits - 2 ^ (bits - 1) else u.

(** The platform-native integers; their width does not matter here. *)
Definition native_integer (value : Value) (v : Z) : Prop :=
  value = V_int v \/ value = V_uint v.

Section Statements.

Context {env : Env}.

(** The endpoint [makeEndpoint] builds, [None] when it returns [nil]. *)
Definition endpoint_of (hostport serviceName : string)
  : option zipkincore.Endpoint :=
  '(host, port) ← SplitHostPort hostport;
  portInt ← strconv.ParseInt10 port 16;
  addrs ← LookupIP host;
  addr ← first_To4 addrs None;
  ip ← binary.Uint32 addr;
  Some (zipkincore.mkEndpoint (int32 ip) (int16 portInt) serviceName).

(** The options the file builds, as opposed to a caller's own. *)
Definition built_in (option : SpanOption) : bool :=
  match option with
  | Custom _ => false
  | _ => true
  end.

Definition is_SetDebug (m : Method) : bool :=
  match m with call_SetDebug => true | _ => false end.

Definition is_Sample (m : Method) : bool :=
  match m with call_Sample => true | _ => false end.

(** The debug flag after the options, from the flag before them: an
    option [Debug] gives it its value, a caller's function that calls
    [SetDebug] sets it. *)
Definition debug_after (options : list SpanOption) (d : bool) : bool :=
  fold_left (fun d option =>
               match option with
               | Debug b => b
               | Custom body => existsb is_SetDebug body || d
               | _ => d
               end) options d.

(** The sampled flag after the options: a caller's function that calls
    [Sample] sets it. *)
Definition sampled_after (options : list SpanOption) (b : bool) : bool :=
  fold_left (fun b option =>
               match option with
               | Custom body => existsb is_Sample body || b
               | _ => b
               end) options b.

(** No [Host] option of the list resolves its endpoint. *)
Definition no_Host_resolves (options : list SpanOption) : Prop :=
  forall hostport serviceName,
    In (Host hostport serviceName) options ->
    endpoint_of hostport serviceName = None.

End Statements.

(** ** Programs over the operations *)

Section Programs.

Context {env : Env}.

(** What the code does to a span it holds: a method of the span, or an
    option applied to it. *)
Inductive Operation : Type :=
| do_Annotate (value : string)
| do_AnnotateBinary (key : string) (value : Value)
| do_AnnotateString (key value : string)
| do_Sample
| do_SetDebug
| do_option (option : SpanOption).

Definition perform (op : Operation) (s : ptr) : M unit :=
  match op with
  | do_Annotate value => Annotate s value
  | do_AnnotateBinary key value => AnnotateBinary s key value
  | do_AnnotateString key value => AnnotateString s key value
  | do_Sample => Sample s
  | do_SetDebug => SetDebug s
  | do_option option => call_option option s
  end.

Fixpoint perform_all (ops : list Operation) (s : ptr) : M unit :=
  match ops with
  | [] => ret tt
  | op :: rest => perform op s;; perform_all rest s
  end.

(** [n] calls of [f()], one after the other. *)
Fixpoint call_times (n : nat) (f : CollectFunc) : M unit :=
  match n with
  | O => ret tt
  | S n' => call_CollectFunc f;; call_times n' f
  end.

(** The example of section 8 of the specification: a span with
    [traceID] 1, [spanID] 2 and no parent is annotated with ["cs"] and
    with the integer constant 200, whose type in Go is [int], and is then
    encoded. *)
Definition end_to_end (hostport serviceName methodName : string)
  : M zipkincore.Span :=
  let! s := NewSpan hostport serviceName methodName 1 2 0 in
  Annotate s "cs";;
  AnnotateBinary s "http.status" (V_int 200);;
  Encode s.

End Programs.

(** ** [MakeNewSpanFunc] *)

Section SpanFuncs.

Context {env : Env}.

(** A [NewSpanFunc]: a function of the three ids that returns a span. *)
Definition NewSpanFunc : Type := Z -> Z -> Z -> M (option nat).

(** The closure over [hostport], [serviceName] and [methodName]. *)
Definition MakeNewSpanFunc (hostport serviceName methodName : string)
  : NewSpanFunc :=
  fun traceID spanID parentSpanID =>
    NewSpan hostport serviceName methodName traceID spanID parentSpanID.

End SpanFuncs.

(** ** More definitions used to state properties *)

(** The operations that are methods of the span, which read the span
    before anything else, and the option [Debug], which does so too. *)
Definition reads_span_first (op : Operation) : bool :=
  match op with
  | do_option (Debug _) => true
  | do_option _ => false
  | _ => true
  end.

(** The fields of a span other than its binary annotations. *)
Definition same_but_binaryAnnotations (s s' : Span) : Prop :=
  host s' = host s
  /\ methodName s' = methodName s
  /\ traceID s' = traceID s
  /\ spanID s' = spanID s
  /\ parentSpanID s' = parentSpanID s
  /\ annotations s' = annotations s
  /\ debug s' = debug s
  /\ sampled s' = sampled s
  /\ runSampler s' = runSampler s.

(** The fields of a span other than its annotations. *)
Definition same_but_annotations (s s' : Span) : Prop :=
  host s' = host s
  /\ methodName s' = methodName s
  /\ traceID s' = traceID s
  /\ spanID s' = spanID s
  /\ parentSpanID s' = parentSpanID s
  /\ binaryAnnotations s' = binaryAnnotations s
  /\ debug s' = debug s
  /\ sampled s' = sampled s
  /\ runSampler s' = runSampler s.

(** The fields of a span that none of its methods and no option writes
    are the same in [s] and [s']; the annotations of [s], of both kinds,
    are the first of [s'], in their order. *)
Definition grown (s s' : Span) : Prop :=
  methodName s' = methodName s
  /\ traceID s' = traceID s
  /\ spanID s' = spanID s
  /\ parentSpanID s' = parentSpanID s
  /\ runSampler s' = runSampler s
  /\ annotations s `prefix_of` annotations s'
  /\ binaryAnnotations s `prefix_of` binaryAnnotations s'.

(** ** A small environment and a small world, to run the code on *)

(** One host name resolves, to one IPv4 address; the clock advances by
    1500 nanoseconds a reading. *)
Definition example_env : Env :=
  {| ClientSend := "cs";
     ClientReceive := "cr";
     ServerAddress := "sa";
     SplitHostPort := fun hostport =>
       if String.eqb hostport "db:5432" then Some ("db", "5432")%string
       else None;
     LookupIP := fun host =>
       if String.eqb host "db" then Some [[x0a; x00; x00; x01]] else None;
     clock := fun n => 1700000000000000000 + 1500 * Z.of_nat n;
     ids := fun n => 7 + Z.of_nat n |}.

Definition example_parent : Span :=
  {| host := None;
     methodName := "handle";
     traceID := 1;
     spanID := 2;
     parentSpanID := 0;
     annotations := [];
     binaryAnnotations := [];
     debug := false;
     sampled := true;
     runSampler := true |}.

(** A world whose only object is [example_parent], at address 0. *)
Definition example_world : World :=
  {| spans := [example_parent];
     endpoints := [];
     vars := [];
     ticks := 0;
     drawn := 0;
     collected := [] |}.

(** A span that already has a timing and a binary annotation, both
    stamped with the endpoint at address 0, and a world whose only span
    it is. *)
Definition example_endpoint : zipkincore.Endpoint :=
  {| zipkincore.Ipv4 := 167772161;
     zipkincore.Port := 8080;
     zipkincore.ServiceName := "frontend" |}.

Definition annotated_span : Span :=
  {| host := Some 0%nat;
     methodName := "handle";
     traceID := 1;
     spanID := 3;
     parentSpanID := 2;
     annotations :=
       [{| timestamp := 1700000000000000000;
           value := "sr";
           a_host := Some 0%nat |}];
     binaryAnnotations :=
       [{| key := "http.uri";
           b_value := list_byte_of_string "/";
           annotationType := AnnotationType_STRING;
           b_host := Some 0%nat |}];
     debug := false;
     sampled := true;
     runSampler := true |}.

Definition annotated_world : World :=
  {| spans := [annotated_span];
     endpoints := [example_endpoint];
     vars := [];
     ticks := 1;
     drawn := 0;
     collected := [] |}.

(** A span with three timing annotations and two binary annotations,
    stamped with two endpoints, and a world whose only span it is. *)
Definition timeline_span : Span :=
  {| host := Some 1%nat;
     methodName := "handle";
     traceID := 1;
     spanID := 3;
     parentSpanID := 2;
     annotations :=
       [{| timestamp := 1700000000000001999;
           value := "sr";
           a_host := Some 0%nat |};
        {| timestamp := 1700000000000005000;
           value := "lookup";
           a_host := None |};
        {| timestamp := 1700000000000009500;
           value := "ss";
           a_host := Some 1%nat |}];
     binaryAnnotations :=
       [{| key := "http.uri";
           b_value := list_byte_of_string "/";
           annotationType := AnnotationType_STRING;
           b_host := Some 0%nat |};
        {| key := "cached";
           b_value := [x01];
           annotationType := AnnotationType_BOOL;
           b_host := Some 1%nat |}];
     debug := true;
     sampled := false;
     runSampler := true |}.

Definition timeline_world : World :=
  {| spans := [timeline_span];
     endpoints := [example_endpoint;
                   {| zipkincore.Ipv4 := 167772162;
                      zipkincore.Port := 8081;
                      zipkincore.ServiceName := "backend" |}];
     vars := [];
     ticks := 3;
     drawn := 0;
     collected := [] |}.

(** A context that carries the span at address 0, and one that carries
    none. *)
Definition example_ctx : Context := {| ambient := Some (Some 0%nat) |}.
Definition empty_ctx : Context := {| ambient := None |}.

(** An environment with more hosts: ["db"] has one IPv4 address,
    ["v6only"] has one IPv6 address, ["dual"] has an IPv6 address, then
    an IPv4 address in its 16-byte form, then another IPv4 address.  The
    host and the port of a hostport are split at its last colon. *)
Fixpoint split_last_colon (s : string) : option (string * string) :=
  match s with
  | EmptyString => None
  | String c rest =>
      match split_last_colon rest with
      | Some (h, p) => Some (String c h, p)
      | None => if Ascii.eqb c ":" then Some (EmptyString, rest) else None
      end
  end.

Definition lab_env : Env :=
  {| ClientSend := "cs";
     ClientReceive := "cr";
     ServerAddress := "sa";
     SplitHostPort := split_last_colon;
     LookupIP := fun host =>
       if String.eqb host "db" then Some [[x0a; x00; x00; x01]]
       else if String.eqb host "v6only" then
         Some [[x20; x01; x0d; xb8; x00; x00; x00; x00;
                x00; x00; x00; x00; x00; x00; x00; x01]]
       else if String.eqb host "dual" then
         Some [[x20; x01; x0d; xb8; x00; x00; x00; x00;
                x00; x00; x00; x00; x00; x00; x00; x01];
               [x00; x00; x00; x00; x00; x00; x00; x00;
                x00; x00; xff; xff; xc0; x00; x02; x07];
               [x0a; x00; x00; x09]]
       else None;
     clock := fun n => 1700000000000000000 + 1500 * Z.of_nat n;
     ids := fun n => 7 + Z.of_nat n |}.


(** * Properties *)

(** Split the goal into its conjuncts. *)
Ltac conjuncts := repeat match goal with |- _ /\ _ => split end.

(** One step of a run on the span at [l]: a lookup of the span, or of the
    span just stored. *)
Ltac run_on H :=
  repeat first
    [ rewrite H
    | rewrite list_lookup_insert_eq by (rewrite ?length_insert; assumption)
    | progress simpl ].

(** ** The model on a few inputs *)

Example ParseInt10_port : strconv.ParseInt10 "5432" 16 = Some 5432.
Proof. reflexivity. Qed.

Example ParseInt10_out_of_range : strconv.ParseInt10 "40000" 16 = None.
Proof. reflexivity. Qed.

Example ParseInt10_syntax :
  strconv.ParseInt10 "+7" 16 = Some 7
  /\ strconv.ParseInt10 "-32768" 16 = Some (-32768)
  /\ strconv.ParseInt10 "" 16 = None
  /\ strconv.ParseInt10 "-" 16 = None
  /\ strconv.ParseInt10 "8o" 16 = None.
Proof. repeat split; reflexivity. Qed.

Example To4_of_mapped_address :
  net.To4 [x00; x00; x00; x00; x00; x00; x00; x00; x00; x00; xff; xff;
           x0a; x00; x00; x01]
  = Some [x0a; x00; x00; x01].
Proof. reflexivity. Qed.

Example To4_of_IPv6_address :
  net.To4 [x20; x01; x0d; xb8; x00; x00; x00; x00; x00; x00; x00; x00;
           x00; x00; x00; x01]
  = None.
Proof. reflexivity. Qed.

Example endpoint_of_example :
  endpoint_of (env := example_env) "db:5432" "postgres"
  = Some {| zipkincore.Ipv4 := 167772161;
            zipkincore.Port := 5432;
            zipkincore.ServiceName := "postgres" |}.
Proof. reflexivity. Qed.

Example endpoint_of_unknown_host :
  endpoint_of (env := example_env) "cache:6379" "redis" = None.
Proof. reflexivity. Qed.

Example type_switch_bool :
  type_switch (V_bool true) = Some (AnnotationType_BOOL, [x01])
  /\ type_switch (V_bool false) = Some (AnnotationType_BOOL, [x00]).
Proof. split; reflexivity. Qed.

Example type_switch_int32_200 :
  type_switch (V_int32 200)
  = Some (AnnotationType_I32, [x00; x00; x00; xc8]).
Proof. reflexivity. Qed.

Example type_switch_int_200 :
  type_switch (V_int 200)
  = Some (AnnotationType_I32, [x00; x00; x00; xc8; x00; x00; x00; x00]).
Proof. reflexivity. Qed.

Example type_switch_int8_minus_1 :
  type_switch (V_int8 (-1))
  = Some (AnnotationType_I32, [xff; xff; xff; xff]).
Proof. reflexivity. Qed.

Example type_switch_int64_minus_2 :
  type_switch (V_int64 (-2))
  = Some (AnnotationType_I64,
          [xff; xff; xff; xff; xff; xff; xff; xfe]).
Proof. reflexivity. Qed.

(** ** Bytes and byte order *)

Lemma Z_of_byte_of_Z (v : Z) : Z_of_byte (byte_of_Z v) = v mod 256.
Proof.
  unfold Z_of_byte, byte_of_Z.
  assert (Hr : 0 <= v mod 256 < 256) by (apply Z.mod_pos_bound; lia).
  destruct (Byte.of_N (Z.to_N (v mod 256))) as [b|] eqn:E; simpl.
  - apply Byte.to_of_N in E. rewrite E. lia.
  - apply Byte.of_N_None_iff in E. lia.
Qed.

Lemma lor_shiftl_add (a b k : Z) :
  0 <= k -> 0 <= a < 2 ^ k -> Z.lor a (Z.shiftl b k) = a + b * 2 ^ k.
Proof.
  intros Hk Ha.
  rewrite <- Z.shiftl_mul_pow2 by lia.
  rewrite <- (Z.add_lor_land a (Z.shiftl b k)).
  replace (Z.land a (Z.shiftl b k)) with 0; [lia|].
  symmetry. apply Z.bits_inj'. intros n Hn.
  rewrite Z.land_spec, Z.bits_0.
  destruct (Z.lt_ge_cases n k).
  - rewrite Z.shiftl_spec_low by lia. apply andb_false_r.
  - rewrite <- (Z.mod_small a (2 ^ k)) by lia.
    rewrite Z.mod_pow2_bits_high by lia. reflexivity.
Qed.

Lemma mod_next_byte (v k : Z) :
  0 <= k ->
  v mod 2 ^ (k + 8) = v mod 2 ^ k + (Z.shiftr v k mod 256) * 2 ^ k.
Proof.
  intros Hk. rewrite Z.shiftr_div_pow2 by lia.
  rewrite Z.pow_add_r by lia.
  assert (0 < 2 ^ k) by (apply Z.pow_pos_nonneg; lia).
  rewrite Z.rem_mul_r by lia. change (2 ^ 8) with 256. lia.
Qed.

Lemma PutUint32_make_4 (v : Z) :
  binary.PutUint32 (make_bytes 4) v = Some (big_endian_32 v).
Proof. reflexivity. Qed.

Lemma PutUint32_make_8 (v : Z) :
  binary.PutUint32 (make_bytes 8) v
  = Some (big_endian_32 v ++ [x00; x00; x00; x00]).
Proof. reflexivity. Qed.

Lemma PutUint64_make_8 (v : Z) :
  binary.PutUint64 (make_bytes 8) v = Some (big_endian_64 v).
Proof. reflexivity. Qed.

Lemma byte_bound (v : Z) : 0 <= v mod 256 < 256.
Proof. apply Z.mod_pos_bound. lia. Qed.

Lemma Uint32_big_endian_32 (v : Z) :
  binary.Uint32 (big_endian_32 v) = Some (v mod 2 ^ 32).
Proof.
  unfold binary.Uint32, big_endian_32. f_equal.
  rewrite !Z_of_byte_of_Z.
  change (2 ^ 32) with (2 ^ (24 + 8)). rewrite mod_next_byte by lia.
  change (2 ^ 24) with (2 ^ (16 + 8)). rewrite mod_next_byte by lia.
  change (2 ^ 16) with (2 ^ (8 + 8)). rewrite mod_next_byte by lia.
  change (2 ^ 8) with 256.
  pose proof (byte_bound v). pose proof (byte_bound (Z.shiftr v 8)).
  pose proof (byte_bound (Z.shiftr v 16)).
  rewrite (lor_shiftl_add (v mod 256)) by lia.
  rewrite (lor_shiftl_add _ _ 16) by lia.
  rewrite (lor_shiftl_add _ _ 24) by lia.
  lia.
Qed.

Lemma Uint64_big_endian_64 (v : Z) :
  binary.Uint64 (big_endian_64 v) = Some (v mod 2 ^ 64).
Proof.
  unfold binary.Uint64, big_endian_64. f_equal.
  rewrite !Z_of_byte_of_Z.
  change (2 ^ 64) with (2 ^ (56 + 8)). rewrite mod_next_byte by lia.
  change (2 ^ 56) with (2 ^ (48 + 8)). rewrite mod_next_byte by lia.
  change (2 ^ 48) with (2 ^ (40 + 8)). rewrite mod_next_byte by lia.
  change (2 ^ 40) with (2 ^ (32 + 8)). rewrite mod_next_byte by lia.
  change (2 ^ 32) with (2 ^ (24 + 8)). rewrite mod_next_byte by lia.
  change (2 ^ 24) with (2 ^ (16 + 8)). rewrite mod_next_byte by lia.
  change (2 ^ 16) with (2 ^ (8 + 8)). rewrite mod_next_byte by lia.
  change (2 ^ 8) with 256.
  pose proof (byte_bound v). pose proof (byte_bound (Z.shiftr v 8)).
  pose proof (byte_bound (Z.shiftr v 16)).
  pose proof (byte_bound (Z.shiftr v 24)).
  pose proof (byte_bound (Z.shiftr v 32)).
  pose proof (byte_bound (Z.shiftr v 40)).
  pose proof (byte_bound (Z.shiftr v 48)).
  rewrite (lor_shiftl_add (v mod 256)) by lia.
  rewrite (lor_shiftl_add _ _ 16) by lia.
  rewrite (lor_shiftl_add _ _ 24) by lia.
  rewrite (lor_shiftl_add _ _ 32) by lia.
  rewrite (lor_shiftl_add _ _ 40) by lia.
  rewrite (lor_shiftl_add _ _ 48) by lia.
  rewrite (lor_shiftl_add _ _ 56) by lia.
  lia.
Qed.

(** ** Running the operations *)

Section Runs.

Context {env : Env}.

Lemma deref_at (w : World) (l : nat) (v : Span) :
  spans w !! l = Some v -> deref (Some l) w = Ok v w.
Proof. intros H. unfold deref. rewrite H. reflexivity. Qed.

Lemma store_at (w : World) (l : nat) (v v' : Span) :
  spans w !! l = Some v ->
  store (Some l) v' w = Ok tt (with_spans (<[l := v']> (spans w)) w).
Proof. intros H. unfold store. rewrite H. reflexivity. Qed.

Lemma Annotate_at (w : World) (l : nat) (v : Span) (val : string) :
  spans w !! l = Some v ->
  Annotate (Some l) val w
  = Ok tt (with_spans
             (<[l := with_annotations
                       (annotations v ++
                          [mk_annotation (clock (ticks w)) val (host v)])
                       v]> (spans w))
             (with_ticks (S (ticks w)) w)).
Proof.
  intros H. unfold Annotate, bind. rewrite (deref_at _ _ _ H).
  unfold time_Now. erewrite store_at by exact H. reflexivity.
Qed.

Lemma AnnotateBinary_at (w : World) (l : nat) (v : Span) (k : string)
  (x : Value) (a : AnnotationType) (b : list byte) :
  type_switch x = Some (a, b) ->
  spans w !! l = Some v ->
  AnnotateBinary (Some l) k x w
  = Ok tt (with_spans
             (<[l := with_binaryAnnotations
                       (binaryAnnotations v ++
                          [mk_binaryAnnotation k b a (host v)])
                       v]> (spans w))
             w).
Proof.
  intros Hx H. unfold AnnotateBinary, bind, or_panic. rewrite Hx.
  rewrite (deref_at _ _ _ H). erewrite store_at by exact H. reflexivity.
Qed.

(** The type switch never panics. *)
Lemma type_switch_total (x : Value) : is_Some (type_switch x).
Proof. destruct x as [[]| | | | | | | | | | | | | | |]; eexists; reflexivity. Qed.

(** *** [makeEndpoint] *)

Lemma To4_length (ip a : net.IP) : net.To4 ip = Some a -> length a = 4%nat.
Proof.
  unfold net.To4. destruct (Nat.eqb (length ip) 4) eqn:E4.
  - intros [= <-]. apply Nat.eqb_eq, E4.
  - destruct (Nat.eqb (length ip) 16) eqn:E16; simpl; [|discriminate].
    apply Nat.eqb_eq in E16.
    destruct (_ && _ && _); [|discriminate].
    intros [= <-]. rewrite length_take, length_drop. lia.
Qed.

Lemma first_To4_length (addrs : list net.IP) (a0 : option net.IP)
  (a : net.IP) :
  (forall a', a0 = Some a' -> length a' = 4%nat) ->
  first_To4 addrs a0 = Some a -> length a = 4%nat.
Proof.
  revert a0. induction addrs as [|ip rest IH]; simpl; intros a0 H0 H.
  - auto.
  - destruct (net.To4 ip) as [a'|] eqn:E.
    + injection H as <-. eapply To4_length, E.
    + eapply IH; [|exact H]. discriminate.
Qed.

Lemma Uint32_of_four (a : list byte) :
  length a = 4%nat -> is_Some (binary.Uint32 a).
Proof.
  destruct a as [|? [|? [|? [|? ?]]]]; simpl; try discriminate.
  intros _. eexists. reflexivity.
Qed.

(** [makeEndpoint] never panics: it returns [nil] and leaves the world
    as it is, or it returns a new endpoint, the last of the heap. *)
Lemma makeEndpoint_spec (hostport serviceName : string) (w : World) :
  makeEndpoint hostport serviceName w
  = match endpoint_of hostport serviceName with
    | Some e => Ok (Some (length (endpoints w)))
                   (with_endpoints (endpoints w ++ [e]) w)
    | None => Ok None w
    end.
Proof.
  unfold makeEndpoint, endpoint_of.
  destruct (SplitHostPort hostport) as [[h p]|]; simpl; [|reflexivity].
  destruct (strconv.ParseInt10 p 16) as [portInt|]; simpl; [|reflexivity].
  destruct (LookupIP h) as [addrs|]; simpl; [|reflexivity].
  destruct (first_To4 addrs None) as [addr|] eqn:E; simpl; [|reflexivity].
  apply first_To4_length in E; [|discriminate].
  destruct (Uint32_of_four _ E) as [ip Hip].
  unfold bind, or_panic. rewrite Hip. reflexivity.
Qed.

End Runs.

(** ** The options *)

Section Options.

Context {env : Env}.

Lemma ServerAddr_resolved (w : World) (l : nat) (s : Span)
  (hostport serviceName : string) (e : zipkincore.Endpoint) :
  endpoint_of hostport serviceName = Some e ->
  spans w !! l = Some s ->
  call_option (ServerAddr hostport serviceName) (Some l) w
  = Ok tt (with_spans
             (<[l := with_binaryAnnotations
                       (binaryAnnotations s ++
                          [mk_binaryAnnotation ServerAddress [x01]
                             AnnotationType_BOOL
                             (Some (length (endpoints w)))])
                       s]> (spans w))
             (with_endpoints (endpoints w ++ [e]) w)).
Proof.
  intros He H. unfold call_option, bind. rewrite makeEndpoint_spec, He.
  pose proof (lookup_lt_Some _ _ _ H) as Hl.
  unfold deref, store, AnnotateBinary, bind, or_panic. run_on H.
  rewrite !list_insert_insert_eq. destruct s; reflexivity.
Qed.

Lemma ServerAddr_unresolved (w : World) (s : ptr)
  (hostport serviceName : string) :
  endpoint_of hostport serviceName = None ->
  call_option (ServerAddr hostport serviceName) s w = Ok tt w.
Proof.
  intros He. unfold call_option, bind. rewrite makeEndpoint_spec, He.
  reflexivity.
Qed.

Lemma Host_resolved (w : World) (l : nat) (s : Span)
  (hostport serviceName : string) (e : zipkincore.Endpoint) :
  endpoint_of hostport serviceName = Some e ->
  spans w !! l = Some s ->
  call_option (Host hostport serviceName) (Some l) w
  = Ok tt (with_spans
             (<[l := with_host (Some (length (endpoints w))) s]> (spans w))
             (with_endpoints (endpoints w ++ [e]) w)).
Proof.
  intros He H. unfold call_option, bind. rewrite makeEndpoint_spec, He.
  unfold deref, store. run_on H. reflexivity.
Qed.

Lemma Host_unresolved (w : World) (s : ptr) (hostport serviceName : string) :
  endpoint_of hostport serviceName = None ->
  call_option (Host hostport serviceName) s w = Ok tt w.
Proof.
  intros He. unfold call_option, bind. rewrite makeEndpoint_spec, He.
  reflexivity.
Qed.

Lemma Debug_at (w : World) (l : nat) (s : Span) (d : bool) :
  spans w !! l = Some s ->
  call_option (Debug d) (Some l) w
  = Ok tt (with_spans (<[l := with_debug d s]> (spans w)) w).
Proof.
  intros H. unfold call_option, bind, deref, store. run_on H. reflexivity.
Qed.

(** C10: the [ServerAddr] option leaves the host of the span as it was.
    When the endpoint resolves, the span afterwards has one more binary
    annotation, the last (key [ServerAddress], type BOOL, value 0x01,
    host the new endpoint, which was not in the heap before), and all its
    other fields and all other spans are as they were; when the endpoint
    does not resolve, the world is left as it was. *)
Theorem ServerAddr_restores_host (w : World) (l : nat) (s : Span)
  (hostport serviceName : string) :
  spans w !! l = Some s ->
  exists w' s',
    call_option (ServerAddr hostport serviceName) (Some l) w = Ok tt w'
    /\ spans w' !! l = Some s'
    /\ host s' = host s
    /\ match endpoint_of hostport serviceName with
       | Some e =>
           exists a,
             binaryAnnotations s' = binaryAnnotations s ++ [a]
             /\ key a = ServerAddress
             /\ annotationType a = AnnotationType_BOOL
             /\ b_value a = [x01]
             /\ endpoint_at w (b_host a) = None
             /\ endpoint_at w' (b_host a) = Some e
             /\ same_but_binaryAnnotations s s'
             /\ (forall l', l' <> l -> spans w' !! l' = spans w !! l')
       | None => w' = w
       end.
Proof.
  intros H. pose proof (lookup_lt_Some _ _ _ H) as Hl.
  destruct (endpoint_of hostport serviceName) as [e|] eqn:He.
  - eexists _, _. split; [apply (ServerAddr_resolved _ _ _ _ _ _ He H)|].
    simpl. rewrite list_lookup_insert_eq by assumption.
    split; [reflexivity|]. split; [destruct s; reflexivity|].
    eexists. split; [reflexivity|]. simpl. conjuncts; try reflexivity.
    + apply lookup_ge_None. lia.
    + apply list_lookup_middle. reflexivity.
    + unfold same_but_binaryAnnotations. simpl. conjuncts; reflexivity.
    + intros l' Hne. apply list_lookup_insert_ne. congruence.
  - exists w, s. split; [apply ServerAddr_unresolved, He|]. auto.
Qed.

End Options.

(** ** The encoder of binary annotations *)

Lemma widen_uint32 (x : Value) (signed : bool) (bits v : Z) :
  small_integer x signed bits v -> uint32 v = widen signed bits v.
Proof.
  unfold uint32, widen, sign_extend, zero_extend, pattern, in_int, in_uint.
  destruct 1 as [v H|v H|v H|v H|v H|v H]; unfold in_int, in_uint in H;
    try (rewrite !Z.mod_small by lia; reflexivity);
    match goal with
    | |- context [?a <=? ?b] => destruct (Z.leb_spec a b)
    end; cbn in *; Z.div_mod_to_equations; lia.
Qed.

Lemma read_widen (x : Value) (signed : bool) (bits v : Z) :
  small_integer x signed bits v -> read_as signed 32 (widen signed bits v) = v.
Proof.
  intros H. rewrite <- (widen_uint32 _ _ _ _ H).
  unfold read_as, uint32, in_int, in_uint.
  destruct H as [v H|v H|v H|v H|v H|v H]; unfold in_int, in_uint in H;
    cbn in *; Z.div_mod_to_equations; lia.
Qed.

Section Encoder.

Context {env : Env}.

(** What [AnnotateBinary] leaves, read off the world and the span
    afterwards: one more binary annotation, the last, and nothing else
    changed. *)
Lemma AnnotateBinary_result (w : World) (l : nat) (s : Span) (k : string)
  (x : Value) (a : AnnotationType) (b : list byte) :
  type_switch x = Some (a, b) ->
  spans w !! l = Some s ->
  exists w' s',
    AnnotateBinary (Some l) k x w = Ok tt w'
    /\ spans w' !! l = Some s'
    /\ binaryAnnotations s'
       = binaryAnnotations s ++ [mk_binaryAnnotation k b a (host s)]
    /\ same_but_binaryAnnotations s s'
    /\ (forall l', l' <> l -> spans w' !! l' = spans w !! l')
    /\ endpoints w' = endpoints w
    /\ vars w' = vars w
    /\ ticks w' = ticks w
    /\ drawn w' = drawn w
    /\ collected w' = collected w.
Proof.
  intros Hx H. pose proof (lookup_lt_Some _ _ _ H) as Hl.
  eexists _, _. split; [apply (AnnotateBinary_at _ _ _ _ _ _ _ Hx H)|].
  simpl. rewrite list_lookup_insert_eq by assumption.
  split; [reflexivity|]. simpl. conjuncts; try reflexivity.
  - unfold same_but_binaryAnnotations. simpl. conjuncts; reflexivity.
  - intros l' Hne. apply list_lookup_insert_ne. congruence.
Qed.

(** C3: for a value [v] of type [int] or [uint], [AnnotateBinary] appends
    to the span a binary annotation of type I32 whose value has eight
    bytes: the first four are the big-endian bytes of [v] modulo 2^32,
    the last four are zero.  The annotation has the key given and the
    host of the span; nothing else of the span changes. *)
Theorem AnnotateBinary_native_integer (w : World) (l : nat) (s : Span)
  (k : string) (x : Value) (v : Z) :
  native_integer x v ->
  spans w !! l = Some s ->
  exists w' s' a,
    AnnotateBinary (Some l) k x w = Ok tt w'
    /\ spans w' !! l = Some s'
    /\ binaryAnnotations s' = binaryAnnotations s ++ [a]
    /\ key a = k
    /\ annotationType a = AnnotationType_I32
    /\ b_host a = host s
    /\ length (b_value a) = 8%nat
    /\ take 4 (b_value a) = big_endian_32 (v mod 2 ^ 32)
    /\ binary.Uint32 (take 4 (b_value a)) = Some (v mod 2 ^ 32)
    /\ drop 4 (b_value a) = [x00; x00; x00; x00]
    /\ same_but_binaryAnnotations s s'.
Proof.
  intros Hx H.
  assert (Hsw : type_switch x
                = Some (AnnotationType_I32,
                        big_endian_32 (v mod 2 ^ 32) ++ [x00; x00; x00; x00]))
    by (destruct Hx as [-> | ->]; reflexivity).
  destruct (AnnotateBinary_result w l s k x _ _ Hsw H)
    as (w' & s' & Hrun & Hs' & Hbin & Hsame & _).
  eexists w', s', _. split; [exact Hrun|]. split; [exact Hs'|].
  split; [exact Hbin|]. cbn [key annotationType b_host b_value].
  conjuncts; try reflexivity; try assumption.
  change (take 4 _) with (big_endian_32 (v mod 2 ^ 32)).
  rewrite Uint32_big_endian_32. rewrite Z.mod_mod by lia. reflexivity.
Qed.

(** C8: for a value of an integer type of 8, 16 or 32 bits,
    [AnnotateBinary] appends to the span a binary annotation of type I32,
    which is not the 16-bit type, whose value is four bytes: the
    big-endian bytes of the value widened to 32 bits, by its sign for a
    signed type and by zeros for an unsigned one.  Read back as a 32-bit
    integer of the same signedness, the four bytes give the value.  The
    annotation has the key given and the host of the span; nothing else
    of the span changes. *)
Theorem AnnotateBinary_small_integer (w : World) (l : nat) (s : Span)
  (k : string) (x : Value) (signed : bool) (bits v : Z) :
  small_integer x signed bits v ->
  spans w !! l = Some s ->
  exists w' s' a u,
    AnnotateBinary (Some l) k x w = Ok tt w'
    /\ spans w' !! l = Some s'
    /\ binaryAnnotations s' = binaryAnnotations s ++ [a]
    /\ key a = k
    /\ annotationType a = AnnotationType_I32
    /\ annotationType a <> zipkincore.AnnotationType_I16
    /\ b_host a = host s
    /\ length (b_value a) = 4%nat
    /\ b_value a = big_endian_32 (widen signed bits v)
    /\ binary.Uint32 (b_value a) = Some u
    /\ u = widen signed bits v
    /\ read_as signed 32 u = v
    /\ same_but_binaryAnnotations s s'.
Proof.
  intros Hx H.
  assert (Hsw : type_switch x
                = Some (AnnotationType_I32,
                        big_endian_32 (widen signed bits v))).
  { rewrite <- (widen_uint32 _ _ _ _ Hx). destruct Hx; reflexivity. }
  destruct (AnnotateBinary_result w l s k x _ _ Hsw H)
    as (w' & s' & Hrun & Hs' & Hbin & Hsame & _).
  eexists w', s', _, (widen signed bits v).
  split; [exact Hrun|]. split; [exact Hs'|]. split; [exact Hbin|].
  cbn [key annotationType b_host b_value].
  conjuncts; try reflexivity; try assumption; try discriminate.
  - rewrite Uint32_big_endian_32. f_equal.
    rewrite <- (widen_uint32 _ _ _ _ Hx). unfold uint32.
    apply Z.mod_mod. lia.
  - apply (read_widen _ _ _ _ Hx).
Qed.

(** C9: for a value of type [int64] or [uint64], [AnnotateBinary] appends
    to the span a binary annotation of type I64 whose value is the eight
    big-endian bytes of the value modulo 2^64; read back as a big-endian
    64-bit integer of the same signedness, they give the value.  The
    annotation has the key given and the host of the span; nothing else
    of the span changes. *)
Theorem AnnotateBinary_long_integer (w : World) (l : nat) (s : Span)
  (k : string) (x : Value) (signed : bool) (v : Z) :
  long_integer x signed v ->
  spans w !! l = Some s ->
  exists w' s' a u,
    AnnotateBinary (Some l) k x w = Ok tt w'
    /\ spans w' !! l = Some s'
    /\ binaryAnnotations s' = binaryAnnotations s ++ [a]
    /\ key a = k
    /\ annotationType a = AnnotationType_I64
    /\ b_host a = host s
    /\ length (b_value a) = 8%nat
    /\ b_value a = big_endian_64 (v mod 2 ^ 64)
    /\ binary.Uint64 (b_value a) = Some u
    /\ read_as signed 64 u = v
    /\ same_but_binaryAnnotations s s'.
Proof.
  intros Hx H.
  assert (Hsw : type_switch x
                = Some (AnnotationType_I64, big_endian_64 (v mod 2 ^ 64)))
    by (destruct Hx; reflexivity).
  destruct (AnnotateBinary_result w l s k x _ _ Hsw H)
    as (w' & s' & Hrun & Hs' & Hbin & Hsame & _).
  eexists w', s', _, (v mod 2 ^ 64).
  split; [exact Hrun|]. split; [exact Hs'|]. split; [exact Hbin|].
  cbn [key annotationType b_host b_value].
  conjuncts; try reflexivity; try assumption.
  - rewrite Uint64_big_endian_64. f_equal. apply Z.mod_mod. lia.
  - unfold read_as.
    destruct Hx as [v Hv|v Hv]; unfold in_int, in_uint in Hv;
      cbn in *; Z.div_mod_to_equations; lia.
Qed.

End Encoder.

(** ** [Encode] *)

Section Encoding.

Context {env : Env}.

(** The loop of [Encode] fills the slice made for it: it never panics,
    and leaves the structures of the annotations, in their order. *)
Lemma range_assign_fills {A B} (f : A -> B) (l : list A)
  (pre : list (option B)) :
  range_assign f (length pre) l (pre ++ replicate (length l) None)
  = Some (pre ++ map (fun a => Some (f a)) l).
Proof.
  revert pre. induction l as [|a rest IH]; intros pre; simpl.
  - reflexivity.
  - unfold assign_index. rewrite list_lookup_middle by reflexivity. simpl.
    replace (<[length pre := Some (f a)]> (pre ++ None :: replicate (length rest) None))
      with ((pre ++ [Some (f a)]) ++ replicate (length rest) None).
    + replace (S (length pre)) with (length (pre ++ [Some (f a)]))
        by (rewrite length_app; simpl; lia).
      rewrite IH, <- app_assoc. reflexivity.
    + rewrite <- app_assoc. simpl.
      rewrite insert_app_r_alt by lia. rewrite Nat.sub_diag. reflexivity.
Qed.

Lemma range_assign_make {A B} (f : A -> B) (l : list A) :
  range_assign f 0 l (replicate (length l) None)
  = Some (map (fun a => Some (f a)) l).
Proof. apply (range_assign_fills f l []). Qed.

Lemma Encode_at (w : World) (l : nat) (s : Span) :
  spans w !! l = Some s ->
  Encode (Some l) w
  = Ok {| zipkincore.TraceId := traceID s;
          zipkincore.Name := methodName s;
          zipkincore.Id := spanID s;
          zipkincore.ParentId :=
            if parentSpanID s =? 0 then None else Some (parentSpanID s);
          zipkincore.Annotations :=
            Some (map (fun a => Some (encode_annotation a)) (annotations s));
          zipkincore.BinaryAnnotations :=
            Some (map (fun a => Some (encode_binaryAnnotation a))
                    (binaryAnnotations s));
          zipkincore.Debug := debug s |} w.
Proof.
  intros H. unfold Encode, bind. rewrite (deref_at _ _ _ H).
  unfold or_panic. rewrite !range_assign_make.
  simpl. destruct (parentSpanID s =? 0); reflexivity.
Qed.

(** C6: [Encode] returns a structure and leaves the world, and so the
    span, as it was.  The field [ParentId] of the structure is present
    exactly when [parentSpanID] is not 0, and then holds it.  The two
    lists are present and as long as the lists of the span, so of length
    zero when the span has no annotation; the entry at each index is a
    structure with the value, the host and the time (in microseconds) of
    the annotation of the span at that index, respectively with its key,
    its bytes, its type and its host. *)
Theorem Encode_wire (w : World) (l : nat) (s : Span) :
  spans w !! l = Some s ->
  exists zs anns bins,
    Encode (Some l) w = Ok zs w
    /\ (is_Some (zipkincore.ParentId zs) <-> parentSpanID s <> 0)
    /\ (forall p, zipkincore.ParentId zs = Some p -> p = parentSpanID s)
    /\ zipkincore.Annotations zs = Some anns
    /\ zipkincore.BinaryAnnotations zs = Some bins
    /\ length anns = length (annotations s)
    /\ length bins = length (binaryAnnotations s)
    /\ (annotations s = [] -> anns = [])
    /\ (binaryAnnotations s = [] -> bins = [])
    /\ (forall i a,
          annotations s !! i = Some a ->
          exists za,
            anns !! i = Some (Some za)
            /\ zipkincore.Value za = value a
            /\ zipkincore.Host za = a_host a
            /\ zipkincore.Timestamp za = Z.quot (timestamp a) 1000)
    /\ (forall i a,
          binaryAnnotations s !! i = Some a ->
          exists zb,
            bins !! i = Some (Some zb)
            /\ zipkincore.Key zb = key a
            /\ zipkincore.BinaryValue zb = b_value a
            /\ zipkincore.BinaryType zb = annotationType a
            /\ zipkincore.BinaryHost zb = b_host a)
    /\ zipkincore.TraceId zs = traceID s
    /\ zipkincore.Name zs = methodName s
    /\ zipkincore.Id zs = spanID s
    /\ zipkincore.Debug zs = debug s.
Proof.
  intros H. eexists _, _, _. split; [apply (Encode_at _ _ _ H)|]. simpl.
  split.
  { destruct (Z.eqb_spec (parentSpanID s) 0) as [E|E]; split.
    - intros [p Hp]. discriminate.
    - intros Hne. contradiction.
    - intros _. exact E.
    - intros _. eexists. reflexivity. }
  split.
  { intros p. destruct (parentSpanID s =? 0); [discriminate|].
    intros [= <-]. reflexivity. }
  split; [reflexivity|]. split; [reflexivity|].
  split; [apply length_map|]. split; [apply length_map|].
  split; [intros ->; reflexivity|]. split; [intros ->; reflexivity|].
  split.
  { intros i a Hi. eexists. split.
    - rewrite list_lookup_fmap, Hi. reflexivity.
    - simpl. conjuncts; reflexivity. }
  split.
  { intros i a Hi. eexists. split.
    - rewrite list_lookup_fmap, Hi. reflexivity.
    - simpl. conjuncts; reflexivity. }
  conjuncts; reflexivity.
Qed.

(** C4, on the code: the example of section 8 of the specification never
    panics.  Its output has one timing annotation with value ["cs"] and
    no [ParentId], and one binary annotation with key ["http.status"] and
    type I32 whose value is the eight bytes 00 00 00 C8 00 00 00 00, not
    the four bytes 00 00 00 C8. *)
Theorem end_to_end_output (hostport serviceName methodName : string)
  (w : World) :
  exists zs w' a b,
    end_to_end hostport serviceName methodName w = Ok zs w'
    /\ zipkincore.ParentId zs = None
    /\ zipkincore.Annotations zs = Some [Some a]
    /\ zipkincore.Value a = "cs"%string
    /\ zipkincore.BinaryAnnotations zs = Some [Some b]
    /\ zipkincore.Key b = "http.status"%string
    /\ zipkincore.BinaryType b = AnnotationType_I32
    /\ zipkincore.BinaryValue b
       = [x00; x00; x00; xc8; x00; x00; x00; x00]
    /\ zipkincore.BinaryValue b <> [x00; x00; x00; xc8].
Proof.
  unfold end_to_end, NewSpan, bind. rewrite makeEndpoint_spec.
  set (e := endpoint_of hostport serviceName).
  assert (Hgen : forall (w0 : World) (h : ptr),
    exists zs w' a b,
      match new_Span (mk_Span h methodName 1 2 0 [] [] false false true) w0 with
      | Ok a0 w'0 =>
          match Annotate a0 "cs" w'0 with
          | Ok _ w'1 =>
              match AnnotateBinary a0 "http.status" (V_int 200) w'1 with
              | Ok _ w'2 => Encode a0 w'2
              | Panic => Panic
              end
          | Panic => Panic
          end
      | Panic => Panic
      end = Ok zs w'
      /\ zipkincore.ParentId zs = None
      /\ zipkincore.Annotations zs = Some [Some a]
      /\ zipkincore.Value a = "cs"%string
      /\ zipkincore.BinaryAnnotations zs = Some [Some b]
      /\ zipkincore.Key b = "http.status"%string
      /\ zipkincore.BinaryType b = AnnotationType_I32
      /\ zipkincore.BinaryValue b
         = [x00; x00; x00; xc8; x00; x00; x00; x00]
      /\ zipkincore.BinaryValue b <> [x00; x00; x00; xc8]).
  { intros w0 h. unfold new_Span.
    set (s0 := mk_Span h methodName 1 2 0 [] [] false false true).
    set (w1 := with_spans (spans w0 ++ [s0]) w0).
    assert (H1 : spans w1 !! length (spans w0) = Some s0)
      by (apply list_lookup_middle; reflexivity).
    pose proof (lookup_lt_Some _ _ _ H1) as Hl.
    rewrite (Annotate_at _ _ _ _ H1).
    erewrite AnnotateBinary_at;
      [|reflexivity
       |simpl; apply list_lookup_insert_eq; exact Hl].
    erewrite Encode_at;
      [|simpl; apply list_lookup_insert_eq; rewrite length_insert; exact Hl].
    eexists _, _, _, _. split; [reflexivity|]. simpl.
    repeat (split; [reflexivity|]). discriminate. }
  destruct e; apply Hgen.
Qed.

End Encoding.

(** ** What an option does to a span *)

Lemma grown_refl (s : Span) : grown s s.
Proof. unfold grown. conjuncts; reflexivity. Qed.

Lemma grown_trans (s1 s2 s3 : Span) :
  grown s1 s2 -> grown s2 s3 -> grown s1 s3.
Proof.
  unfold grown. intros (?&?&?&?&?&?&?) (?&?&?&?&?&?&?).
  conjuncts; try congruence; etrans; eassumption.
Qed.

Section OptionEffects.

Context {env : Env}.

Lemma debug_after_cons (o : SpanOption) (rest : list SpanOption) (d : bool) :
  debug_after (o :: rest) d = debug_after rest (debug_after [o] d).
Proof. reflexivity. Qed.

Lemma sampled_after_cons (o : SpanOption) (rest : list SpanOption)
  (b : bool) :
  sampled_after (o :: rest) b = sampled_after rest (sampled_after [o] b).
Proof. reflexivity. Qed.

Lemma sampled_after_built_in (options : list SpanOption) (b : bool) :
  forallb built_in options = true -> sampled_after options b = b.
Proof.
  revert b. induction options as [|o rest IH]; intros b H; [reflexivity|].
  simpl in H. apply andb_prop in H as [Ho Hrest].
  rewrite sampled_after_cons, (IH _ Hrest).
  destruct o; try reflexivity. discriminate.
Qed.

Lemma no_Host_resolves_cons (o : SpanOption) (rest : list SpanOption) :
  no_Host_resolves (o :: rest) ->
  no_Host_resolves [o] /\ no_Host_resolves rest.
Proof.
  unfold no_Host_resolves. intros H. split; intros hp sn Hin.
  - apply H. destruct Hin as [->|[]]. left. reflexivity.
  - apply H. right. exact Hin.
Qed.

(** A method of the span, called on a span that is there, never panics.
    It writes that span only: it appends annotations or sets a flag. *)
Lemma call_method_effect (m : Method) (w : World) (l : nat) (s : Span) :
  spans w !! l = Some s ->
  exists w' s',
    call_method m (Some l) w = Ok tt w'
    /\ spans w' = <[l := s']> (spans w)
    /\ endpoints w' = endpoints w
    /\ vars w' = vars w
    /\ drawn w' = drawn w
    /\ collected w' = collected w
    /\ grown s s'
    /\ host s' = host s
    /\ debug s' = is_SetDebug m || debug s
    /\ sampled s' = is_Sample m || sampled s.
Proof.
  intros H. pose proof (lookup_lt_Some _ _ _ H) as Hl.
  destruct m as [v|k v|k v| |]; simpl.
  - eexists _, _. split; [apply (Annotate_at _ _ _ _ H)|]. simpl.
    conjuncts; try reflexivity.
    unfold grown. simpl. conjuncts; try reflexivity.
    apply prefix_app_r. done.
  - destruct (type_switch_total v) as [[a b] Hv].
    eexists _, _. split; [apply (AnnotateBinary_at _ _ _ _ _ _ _ Hv H)|].
    simpl. conjuncts; try reflexivity.
    unfold grown. simpl. conjuncts; try reflexivity.
    apply prefix_app_r. done.
  - eexists _, _. split.
    { unfold AnnotateString, bind, deref, store. run_on H. reflexivity. }
    simpl. conjuncts; try reflexivity.
    unfold grown. simpl. conjuncts; try reflexivity.
    apply prefix_app_r. done.
  - eexists _, _. split.
    { unfold Sample, bind, deref, store. run_on H. reflexivity. }
    simpl. conjuncts; try reflexivity.
    unfold grown. simpl. conjuncts; reflexivity.
  - eexists _, _. split.
    { unfold SetDebug, bind, deref, store. run_on H. reflexivity. }
    simpl. conjuncts; try reflexivity.
    unfold grown. simpl. conjuncts; reflexivity.
Qed.

(** The same for the calls a caller's function makes. *)
Lemma call_methods_effect (body : list Method) (w : World) (l : nat)
  (s : Span) :
  spans w !! l = Some s ->
  exists w' s',
    call_methods body (Some l) w = Ok tt w'
    /\ spans w' = <[l := s']> (spans w)
    /\ endpoints w' = endpoints w
    /\ vars w' = vars w
    /\ drawn w' = drawn w
    /\ collected w' = collected w
    /\ grown s s'
    /\ host s' = host s
    /\ debug s' = existsb is_SetDebug body || debug s
    /\ sampled s' = existsb is_Sample body || sampled s.
Proof.
  revert w s. induction body as [|m rest IH]; intros w s H.
  - exists w, s. split; [reflexivity|].
    conjuncts; try reflexivity; try apply grown_refl.
    symmetry. apply list_insert_id, H.
  - destruct (call_method_effect m w l s H)
      as (w1 & s1 & Hrun & Hs & He & Hv & Hd & Hc & Hg & Hh & Hdb & Hsa).
    pose proof (lookup_lt_Some _ _ _ H) as Hl.
    assert (H1 : spans w1 !! l = Some s1)
      by (rewrite Hs; apply list_lookup_insert_eq, Hl).
    destruct (IH w1 s1 H1)
      as (w2 & s2 & Hrun2 & Hs2 & He2 & Hv2 & Hd2 & Hc2 & Hg2 & Hh2
          & Hdb2 & Hsa2).
    exists w2, s2. split.
    { cbn [call_methods]. unfold bind. rewrite Hrun. exact Hrun2. }
    conjuncts; try congruence.
    + rewrite Hs2, Hs. apply list_insert_insert_eq.
    + eapply grown_trans; eassumption.
    + rewrite Hdb2, Hdb. simpl.
      destruct (is_SetDebug m), (existsb is_SetDebug rest), (debug s);
        reflexivity.
    + rewrite Hsa2, Hsa. simpl.
      destruct (is_Sample m), (existsb is_Sample rest), (sampled s);
        reflexivity.
Qed.

(** An option never panics on a span that is there.  It writes that span
    only, adds endpoints at the end of their heap at most, and leaves the
    variables, the id generator and the collector alone; one of the three
    options of the file leaves the clock and the annotations alone too. *)
Lemma call_option_effect (o : SpanOption) (w : World) (l : nat) (s : Span) :
  spans w !! l = Some s ->
  exists w' s',
    call_option o (Some l) w = Ok tt w'
    /\ spans w' = <[l := s']> (spans w)
    /\ endpoints w `prefix_of` endpoints w'
    /\ vars w' = vars w
    /\ drawn w' = drawn w
    /\ collected w' = collected w
    /\ grown s s'
    /\ debug s' = debug_after [o] (debug s)
    /\ sampled s' = sampled_after [o] (sampled s)
    /\ (no_Host_resolves [o] -> host s' = host s)
    /\ (built_in o = true ->
        ticks w' = ticks w /\ annotations s' = annotations s).
Proof.
  intros H.
  assert (Hid : spans w = <[l := s]> (spans w))
    by (symmetry; apply list_insert_id, H).
  destruct o as [hp sn|hp sn|d|body];
    [destruct (endpoint_of hp sn) as [e|] eqn:He
    |destruct (endpoint_of hp sn) as [e|] eqn:He| |].
  - eexists _, _. split; [apply (ServerAddr_resolved _ _ _ _ _ _ He H)|].
    cbn [spans endpoints vars drawn collected ticks with_spans
         with_endpoints].
    conjuncts; try solve [reflexivity | apply prefix_app_r; done].
    + unfold grown. simpl.
      conjuncts; solve [reflexivity | apply prefix_app_r; done].
    + intros _. split; reflexivity.
  - exists w, s. split; [apply ServerAddr_unresolved, He|].
    conjuncts; try solve [done | apply grown_refl].
  - eexists _, _. split; [apply (Host_resolved _ _ _ _ _ _ He H)|].
    cbn [spans endpoints vars drawn collected ticks with_spans
         with_endpoints].
    conjuncts; try solve [reflexivity | apply prefix_app_r; done].
    + unfold grown. simpl. conjuncts; reflexivity.
    + intros Hno. rewrite (Hno hp sn) in He; [discriminate|]. left. done.
    + intros _. split; reflexivity.
  - exists w, s. split; [apply Host_unresolved, He|].
    conjuncts; try solve [done | apply grown_refl].
  - eexists _, _. split; [apply (Debug_at _ _ _ _ H)|].
    cbn [spans endpoints vars drawn collected ticks with_spans].
    conjuncts;
      solve [done
            |unfold grown; simpl; conjuncts; reflexivity
            |intros _; split; reflexivity].
  - destruct (call_methods_effect body w l s H)
      as (w' & s' & Hrun & Hs & He & Hv & Hd & Hc & Hg & Hh & Hdb & Hsa).
    exists w', s'. split; [exact Hrun|].
    conjuncts; try assumption; try discriminate.
    + rewrite He. done.
    + intros _. exact Hh.
Qed.

Lemma call_options_cons (o : SpanOption) (rest : list SpanOption)
  (x : nat) (w : World) :
  call_options (o :: rest) x w
  = match vars w !! x with
    | Some c => match call_option o c w with
                | Ok _ w' => call_options rest x w'
                | Panic => Panic
                end
    | None => Panic
    end.
Proof.
  simpl. unfold bind, read_var. destruct (vars w !! x); reflexivity.
Qed.

(** The same for the loop over the options of [NewChildSpan], whose
    variable [childSpan] is [x]. *)
Lemma call_options_effect (options : list SpanOption) (w : World)
  (x l : nat) (s : Span) :
  vars w !! x = Some (Some l) ->
  spans w !! l = Some s ->
  exists w' s',
    call_options options x w = Ok tt w'
    /\ spans w' = <[l := s']> (spans w)
    /\ endpoints w `prefix_of` endpoints w'
    /\ vars w' = vars w
    /\ drawn w' = drawn w
    /\ collected w' = collected w
    /\ grown s s'
    /\ debug s' = debug_after options (debug s)
    /\ sampled s' = sampled_after options (sampled s)
    /\ (no_Host_resolves options -> host s' = host s)
    /\ (forallb built_in options = true ->
        ticks w' = ticks w /\ annotations s' = annotations s).
Proof.
  revert w s. induction options as [|o rest IH]; intros w s Hx H.
  - exists w, s. split; [reflexivity|].
    conjuncts; try solve [done | apply grown_refl].
    symmetry. apply list_insert_id, H.
  - destruct (call_option_effect o w l s H)
      as (w1 & s1 & Hrun & Hs & He & Hv & Hd & Hc & Hg & Hdb & Hsa & Hh
          & Hb).
    pose proof (lookup_lt_Some _ _ _ H) as Hl.
    assert (H1 : spans w1 !! l = Some s1)
      by (rewrite Hs; apply list_lookup_insert_eq, Hl).
    assert (Hx1 : vars w1 !! x = Some (Some l)) by (rewrite Hv; exact Hx).
    destruct (IH w1 s1 Hx1 H1)
      as (w2 & s2 & Hrun2 & Hs2 & He2 & Hv2 & Hd2 & Hc2 & Hg2 & Hdb2
          & Hsa2 & Hh2 & Hb2).
    exists w2, s2. split.
    { rewrite call_options_cons, Hx, Hrun. exact Hrun2. }
    conjuncts; try congruence.
    + rewrite Hs2, Hs. apply list_insert_insert_eq.
    + etrans; eassumption.
    + eapply grown_trans; eassumption.
    + rewrite debug_after_cons. congruence.
    + rewrite sampled_after_cons. congruence.
    + intros Hno. apply no_Host_resolves_cons in Hno as [Ho Hrest].
      rewrite Hh2, Hh; done.
    + intros Hall. simpl in Hall. apply andb_prop in Hall as [Ho Hrest].
      destruct (Hb Ho) as [Ht Ha]. destruct (Hb2 Hrest) as [Ht2 Ha2].
      split; congruence.
Qed.

End OptionEffects.

(** ** [NewChildSpan] and the function it returns *)

Section ChildSpans.

Context {env : Env}.

(** The world after [NewChildSpan], for a parent that the context
    carries: one more span, the child, one more variable and one more id.
    The child is the span built from the parent, with the client-send
    annotation, as the options leave it. *)
Lemma NewChildSpan_run (ctx : Context) (collector : Collector)
  (methodName : string) (options : list SpanOption) (w : World)
  (p : nat) (parent : Span) :
  FromContext ctx = (Some p, true) ->
  spans w !! p = Some parent ->
  exists w' child,
    NewChildSpan ctx collector methodName options w
    = Ok (Some (length (spans w)),
          func_collect (length (vars w)) collector) w'
    /\ spans w' = spans w ++ [child]
    /\ vars w' = vars w ++ [Some (length (spans w))]
    /\ collected w' = collected w
    /\ drawn w' = S (drawn w)
    /\ endpoints w `prefix_of` endpoints w'
    /\ grown (mk_Span (host parent) methodName (traceID parent)
               (ids (drawn w)) (spanID parent)
               [mk_annotation (clock (ticks w)) ClientSend (host parent)]
               [] (debug parent) (sampled parent) (runSampler parent))
            child
    /\ debug child = debug_after options (debug parent)
    /\ sampled child = sampled_after options (sampled parent)
    /\ (no_Host_resolves options -> host child = host parent)
    /\ (forallb built_in options = true ->
        ticks w' = S (ticks w)
        /\ annotations child
           = [mk_annotation (clock (ticks w)) ClientSend (host parent)]).
Proof.
  intros Hctx Hp. unfold NewChildSpan. rewrite Hctx. simpl.
  unfold bind. rewrite (deref_at _ _ _ Hp).
  unfold newID, new_Span, new_var, read_var. simpl.
  rewrite list_lookup_middle by reflexivity.
  set (c := length (spans w)). set (x := length (vars w)).
  set (child0 := mk_Span (host parent) methodName (traceID parent)
                   (ids (drawn w)) (spanID parent) [] []
                   (debug parent) (sampled parent) (runSampler parent)).
  set (w0 := with_vars _ _).
  assert (H0 : spans w0 !! c = Some child0)
    by (apply list_lookup_middle; reflexivity).
  rewrite (Annotate_at _ _ _ _ H0).
  set (child1 := with_annotations _ child0).
  set (w1 := with_spans _ _).
  pose proof (lookup_lt_Some _ _ _ H0) as Hc.
  assert (H1 : spans w1 !! c = Some child1)
    by (apply list_lookup_insert_eq, Hc).
  assert (Hx : vars w1 !! x = Some (Some c))
    by (apply list_lookup_middle; reflexivity).
  destruct (call_options_effect options w1 x c child1 Hx H1)
    as (w2 & child & Hrun & Hs & He & Hv & Hd & Hcol & Hg & Hdb & Hsa & Hh
        & Hb).
  rewrite Hrun, Hv, Hx.
  exists w2, child. split; [reflexivity|]. conjuncts; try assumption.
  rewrite Hs. simpl. rewrite list_insert_insert_eq.
  fold c. rewrite <- (Nat.add_0_r c). unfold c.
  rewrite insert_app_r. reflexivity.
Qed.

(** C1, amended: for a parent span that the context carries, and options
    that are options of the file or functions of the caller that call the
    methods of the span they receive, [NewChildSpan] returns a child whose
    [traceID] and [runSampler] are the parent's, whose [parentSpanID] is
    the [spanID] of the parent, and whose annotations start with the
    client-send annotation, made before the options run and stamped with
    the host of the parent.  The sampled flag of the child is the
    parent's unless a function of the caller calls [Sample]; its debug
    flag is the parent's unless an option [Debug] or a call of [SetDebug]
    changes it, and the last of these decides; its host is the parent's
    unless a [Host] option resolves its endpoint. *)
Theorem NewChildSpan_child (ctx : Context) (collector : Collector)
  (methodName : string) (options : list SpanOption) (w : World)
  (p : nat) (parent : Span) :
  FromContext ctx = (Some p, true) ->
  spans w !! p = Some parent ->
  exists c f w' child rest,
    NewChildSpan ctx collector methodName options w = Ok (Some c, f) w'
    /\ spans w' !! c = Some child
    /\ traceID child = traceID parent
    /\ parentSpanID child = spanID parent
    /\ runSampler child = runSampler parent
    /\ annotations child
       = mk_annotation (clock (ticks w)) ClientSend (host parent) :: rest
    /\ sampled child = sampled_after options (sampled parent)
    /\ debug child = debug_after options (debug parent)
    /\ (no_Host_resolves options -> host child = host parent).
Proof.
  intros Hctx Hp.
  destruct (NewChildSpan_run ctx collector methodName options w p parent
              Hctx Hp)
    as (w' & child & Hrun & Hs & _ & _ & _ & _ & Hg & Hdb & Hsa & Hh & _).
  destruct Hg as (_ & Htr & _ & Hpa & Hrs & [rest Han] & _).
  simpl in Htr, Hpa, Hrs, Han.
  exists (length (spans w)), (func_collect (length (vars w)) collector),
    w', child, rest.
  conjuncts; try assumption.
  rewrite Hs. apply list_lookup_middle. reflexivity.
Qed.

(** The first call of the closure of [NewChildSpan], while its variable
    holds the child, and any call after the variable was set to [nil]. *)
Lemma call_collect_first (w : World) (x c col : nat) (s : Span) :
  vars w !! x = Some (Some c) ->
  spans w !! c = Some s ->
  call_CollectFunc (func_collect x (Some col)) w
  = Ok tt
      (with_vars (<[x := None]> (vars w))
         (with_collected (collected w ++ [(col, Some c)])
            (with_spans
               (<[c := with_annotations
                         (annotations s ++
                            [mk_annotation (clock (ticks w)) ClientReceive
                               (host s)])
                         s]> (spans w))
               (with_ticks (S (ticks w)) w)))).
Proof.
  intros Hx Hc. unfold call_CollectFunc, bind, read_var. rewrite Hx.
  rewrite (Annotate_at _ _ _ _ Hc). unfold Collect, write_var. simpl.
  rewrite Hx. reflexivity.
Qed.

Lemma call_collect_done (w : World) (x : nat) (collector : Collector) :
  vars w !! x = Some None ->
  call_CollectFunc (func_collect x collector) w = Ok tt w.
Proof.
  intros Hx. unfold call_CollectFunc, bind, read_var. rewrite Hx.
  reflexivity.
Qed.

Lemma call_times_done (n : nat) (w : World) (x : nat)
  (collector : Collector) :
  vars w !! x = Some None ->
  call_times n (func_collect x collector) w = Ok tt w.
Proof.
  intros Hx. induction n as [|n IH]; [reflexivity|].
  cbn [call_times]. unfold bind. rewrite (call_collect_done _ _ _ Hx).
  exact IH.
Qed.

(** C2: for a parent span that the context carries and a collector
    [col], the first call of the function that [NewChildSpan] returns
    appends the client-receive annotation to the child, changing nothing
    else of it, reads the clock once for it and calls [Collect] of [col]
    once, on the child; a second call leaves the world as the first one
    left it, and so does any number of further calls. *)
Theorem finalize_collects_once (ctx : Context) (col : nat)
  (methodName : string) (options : list SpanOption) (w : World)
  (p : nat) (parent : Span) :
  FromContext ctx = (Some p, true) ->
  spans w !! p = Some parent ->
  exists c f w1 child w2 child2,
    NewChildSpan ctx (Some col) methodName options w = Ok (Some c, f) w1
    /\ spans w1 !! c = Some child
    /\ call_CollectFunc f w1 = Ok tt w2
    /\ spans w2 !! c = Some child2
    /\ annotations child2
       = annotations child ++
         [mk_annotation (clock (ticks w1)) ClientReceive (host child)]
    /\ same_but_annotations child child2
    /\ collected w2 = collected w1 ++ [(col, Some c)]
    /\ ticks w2 = S (ticks w1)
    /\ call_CollectFunc f w2 = Ok tt w2
    /\ (call_CollectFunc f;; call_CollectFunc f) w1 = Ok tt w2
    /\ (forall n, call_times (S n) f w1 = Ok tt w2).
Proof.
  intros Hctx Hp.
  destruct (NewChildSpan_run ctx (Some col) methodName options w p parent
              Hctx Hp)
    as (w1 & child & Hrun & Hs & Hv & _).
  assert (Hc : spans w1 !! length (spans w) = Some child)
    by (rewrite Hs; apply list_lookup_middle; reflexivity).
  assert (Hx : vars w1 !! length (vars w) = Some (Some (length (spans w))))
    by (rewrite Hv; apply list_lookup_middle; reflexivity).
  pose proof (call_collect_first w1 _ _ col child Hx Hc) as Hfirst.
  set (w2 := with_vars _ _) in Hfirst.
  assert (Hx2 : vars w2 !! length (vars w) = Some None).
  { apply list_lookup_insert_eq. eapply lookup_lt_Some, Hx. }
  pose proof (call_collect_done w2 _ (Some col) Hx2) as Hsecond.
  eexists (length (spans w)), (func_collect (length (vars w)) (Some col)),
    w1, child, w2, _.
  split; [exact Hrun|]. split; [exact Hc|]. split; [exact Hfirst|].
  split.
  { simpl. apply list_lookup_insert_eq. eapply lookup_lt_Some, Hc. }
  conjuncts; try reflexivity; try assumption.
  - unfold same_but_annotations. simpl. conjuncts; reflexivity.
  - unfold bind. rewrite Hfirst. exact Hsecond.
  - intros n. cbn [call_times]. unfold bind. rewrite Hfirst.
    apply call_times_done, Hx2.
Qed.

(** C5: for a context that carries no span, [NewChildSpan] returns the
    [nil] span and a function, and leaves the world as it was; any number
    of calls of that function returns without a panic and leaves the
    world, and so the calls of the collector, as it was. *)
Theorem NewChildSpan_no_parent (ctx : Context) (collector : Collector)
  (methodName : string) (options : list SpanOption) (w : World) :
  snd (FromContext ctx) = false ->
  exists f,
    NewChildSpan ctx collector methodName options w = Ok (None, f) w
    /\ forall n w', call_times n f w' = Ok tt w'.
Proof.
  intros Hctx. exists func_nothing. split.
  - unfold NewChildSpan, FromContext in *.
    destruct (ambient ctx); [discriminate|]. reflexivity.
  - intros n w'. induction n as [|n IH]; [reflexivity|exact IH].
Qed.

End ChildSpans.

(** ** The host an annotation recorded *)

Section RecordedHosts.

Context {env : Env}.

(** An operation on a span that is there never panics; it keeps the
    annotations the span has, in their places, and the endpoints the heap
    has, at their addresses, and leaves the variables of the closures and
    the calls of the collector as they were. *)
Lemma perform_effect (op : Operation) (w : World) (l : nat) (s : Span) :
  spans w !! l = Some s ->
  exists w' s',
    perform op (Some l) w = Ok tt w'
    /\ spans w' !! l = Some s'
    /\ annotations s `prefix_of` annotations s'
    /\ binaryAnnotations s `prefix_of` binaryAnnotations s'
    /\ endpoints w `prefix_of` endpoints w'
    /\ vars w' = vars w
    /\ collected w' = collected w.
Proof.
  intros H. pose proof (lookup_lt_Some _ _ _ H) as Hl.
  assert (Hmethod : forall m,
    exists w' s',
      call_method m (Some l) w = Ok tt w'
      /\ spans w' !! l = Some s'
      /\ annotations s `prefix_of` annotations s'
      /\ binaryAnnotations s `prefix_of` binaryAnnotations s'
      /\ endpoints w `prefix_of` endpoints w'
      /\ vars w' = vars w
      /\ collected w' = collected w).
  { intros m. destruct (call_method_effect m w l s H)
      as (w' & s' & Hrun & Hs & He & Hv & _ & Hc & Hg & _).
    destruct Hg as (_ & _ & _ & _ & _ & Han & Hbin).
    exists w', s'. conjuncts; try assumption.
    - rewrite Hs. apply list_lookup_insert_eq, Hl.
    - rewrite He. done. }
  destruct op as [v|k v|k v| | |o].
  - apply (Hmethod (call_Annotate v)).
  - apply (Hmethod (call_AnnotateBinary k v)).
  - apply (Hmethod (call_AnnotateString k v)).
  - apply (Hmethod call_Sample).
  - apply (Hmethod call_SetDebug).
  - destruct (call_option_effect o w l s H)
      as (w' & s' & Hrun & Hs & He & Hv & _ & Hc & Hg & _).
    destruct Hg as (_ & _ & _ & _ & _ & Han & Hbin).
    exists w', s'. conjuncts; try assumption.
    rewrite Hs. apply list_lookup_insert_eq, Hl.
Qed.

Lemma perform_all_effect (ops : list Operation) (w : World) (l : nat)
  (s : Span) :
  spans w !! l = Some s ->
  exists w' s',
    perform_all ops (Some l) w = Ok tt w'
    /\ spans w' !! l = Some s'
    /\ annotations s `prefix_of` annotations s'
    /\ binaryAnnotations s `prefix_of` binaryAnnotations s'
    /\ endpoints w `prefix_of` endpoints w'
    /\ vars w' = vars w
    /\ collected w' = collected w.
Proof.
  revert w s. induction ops as [|op rest IH]; intros w s H.
  - exists w, s. conjuncts; done.
  - destruct (perform_effect op w l s H)
      as (w1 & s1 & Hrun & H1 & Ha & Hb & He & Hv & Hc).
    destruct (IH w1 s1 H1)
      as (w2 & s2 & Hrun2 & H2 & Ha2 & Hb2 & He2 & Hv2 & Hc2).
    exists w2, s2.
    conjuncts; try assumption; try congruence; try (etrans; eassumption).
    cbn [perform_all]. unfold bind. rewrite Hrun. exact Hrun2.
Qed.

(** C7: whatever is done next to a span that is there (its methods, the
    options [Host], [ServerAddr] and [Debug], in any number and order),
    none of it panics, and every annotation and binary annotation the
    span had stays in its place as it was, with the pointer to its host;
    the endpoint that pointer leads to stays the same too. *)
Theorem annotations_keep_their_host (ops : list Operation) (w : World)
  (l : nat) (s : Span) :
  spans w !! l = Some s ->
  exists w' s',
    perform_all ops (Some l) w = Ok tt w'
    /\ spans w' !! l = Some s'
    /\ (forall i a,
          annotations s !! i = Some a ->
          exists a',
            annotations s' !! i = Some a'
            /\ a' = a
            /\ a_host a' = a_host a
            /\ forall e, endpoint_at w (a_host a) = Some e ->
                         endpoint_at w' (a_host a') = Some e)
    /\ (forall i a,
          binaryAnnotations s !! i = Some a ->
          exists a',
            binaryAnnotations s' !! i = Some a'
            /\ a' = a
            /\ b_host a' = b_host a
            /\ forall e, endpoint_at w (b_host a) = Some e ->
                         endpoint_at w' (b_host a') = Some e).
Proof.
  intros H.
  destruct (perform_all_effect ops w l s H)
    as (w' & s' & Hrun & H' & Ha & Hb & He & _).
  assert (Hend : forall p e,
             endpoint_at w p = Some e -> endpoint_at w' p = Some e).
  { intros [x|] e; simpl; [|discriminate].
    intros Hx. eapply prefix_lookup_Some; eassumption. }
  exists w', s'. conjuncts; try assumption.
  - intros i a Hi. exists a. conjuncts; try reflexivity.
    + eapply prefix_lookup_Some; eassumption.
    + apply Hend.
  - intros i a Hi. exists a. conjuncts; try reflexivity.
    + eapply prefix_lookup_Some; eassumption.
    + apply Hend.
Qed.

End RecordedHosts.

(** ** The properties at work on the small world *)

Lemma ServerAddr_restores_host_witness :
  exists w' s',
    call_option (env := example_env) (ServerAddr "db:5432" "postgres")
      (Some 0%nat) annotated_world = Ok tt w'
    /\ spans w' !! 0%nat = Some s'
    /\ host s' = Some 0%nat
    /\ exists a,
         binaryAnnotations s' = binaryAnnotations annotated_span ++ [a]
         /\ key a = "sa"%string
         /\ annotationType a = AnnotationType_BOOL
         /\ b_value a = [x01]
         /\ endpoint_at annotated_world (b_host a) = None
         /\ endpoint_at w' (b_host a)
            = Some {| zipkincore.Ipv4 := 167772161;
                      zipkincore.Port := 5432;
                      zipkincore.ServiceName := "postgres" |}
         /\ same_but_binaryAnnotations annotated_span s'
         /\ (forall l', l' <> 0%nat ->
                        spans w' !! l' = spans annotated_world !! l').
Proof.
  apply (ServerAddr_restores_host (env := example_env) annotated_world 0
           annotated_span "db:5432" "postgres").
  reflexivity.
Defined.

Lemma AnnotateBinary_native_integer_witness :
  exists w' s' a,
    AnnotateBinary (Some 0%nat) "http.status" (V_int 200) annotated_world
    = Ok tt w'
    /\ spans w' !! 0%nat = Some s'
    /\ binaryAnnotations s' = binaryAnnotations annotated_span ++ [a]
    /\ key a = "http.status"%string
    /\ annotationType a = AnnotationType_I32
    /\ b_host a = host annotated_span
    /\ length (b_value a) = 8%nat
    /\ take 4 (b_value a) = [x00; x00; x00; xc8]
    /\ binary.Uint32 (take 4 (b_value a)) = Some 200
    /\ drop 4 (b_value a) = [x00; x00; x00; x00]
    /\ same_but_binaryAnnotations annotated_span s'.
Proof.
  apply (AnnotateBinary_native_integer annotated_world 0 annotated_span
           "http.status" (V_int 200) 200).
  - left. reflexivity.
  - reflexivity.
Defined.

Lemma AnnotateBinary_small_integer_witness :
  exists w' s' a u,
    AnnotateBinary (Some 0%nat) "delta" (V_int16 (-2)) annotated_world
    = Ok tt w'
    /\ spans w' !! 0%nat = Some s'
    /\ binaryAnnotations s' = binaryAnnotations annotated_span ++ [a]
    /\ key a = "delta"%string
    /\ annotationType a = AnnotationType_I32
    /\ annotationType a <> zipkincore.AnnotationType_I16
    /\ b_host a = host annotated_span
    /\ length (b_value a) = 4%nat
    /\ b_value a = [xff; xff; xff; xfe]
    /\ binary.Uint32 (b_value a) = Some u
    /\ u = 4294967294
    /\ read_as true 32 u = -2
    /\ same_but_binaryAnnotations annotated_span s'.
Proof.
  apply (AnnotateBinary_small_integer annotated_world 0 annotated_span
           "delta" (V_int16 (-2)) true 16 (-2)).
  - apply small_int16. unfold in_int. simpl. lia.
  - reflexivity.
Defined.

Lemma AnnotateBinary_long_integer_witness :
  exists w' s' a u,
    AnnotateBinary (Some 0%nat) "offset" (V_int64 (-5)) annotated_world
    = Ok tt w'
    /\ spans w' !! 0%nat = Some s'
    /\ binaryAnnotations s' = binaryAnnotations annotated_span ++ [a]
    /\ key a = "offset"%string
    /\ annotationType a = AnnotationType_I64
    /\ b_host a = host annotated_span
    /\ length (b_value a) = 8%nat
    /\ b_value a = [xff; xff; xff; xff; xff; xff; xff; xfb]
    /\ binary.Uint64 (b_value a) = Some u
    /\ read_as true 64 u = -5
    /\ same_but_binaryAnnotations annotated_span s'.
Proof.
  apply (AnnotateBinary_long_integer annotated_world 0 annotated_span
           "offset" (V_int64 (-5)) true (-5)).
  - apply long_int64. unfold in_int. simpl. lia.
  - reflexivity.
Defined.

Lemma Encode_wire_witness :
  exists zs anns bins,
    Encode (Some 0%nat) timeline_world = Ok zs timeline_world
    /\ (is_Some (zipkincore.ParentId zs) <-> parentSpanID timeline_span <> 0)
    /\ (forall p, zipkincore.ParentId zs = Some p ->
                  p = parentSpanID timeline_span)
    /\ zipkincore.Annotations zs = Some anns
    /\ zipkincore.BinaryAnnotations zs = Some bins
    /\ length anns = length (annotations timeline_span)
    /\ length bins = length (binaryAnnotations timeline_span)
    /\ (annotations timeline_span = [] -> anns = [])
    /\ (binaryAnnotations timeline_span = [] -> bins = [])
    /\ (forall i a,
          annotations timeline_span !! i = Some a ->
          exists za,
            anns !! i = Some (Some za)
            /\ zipkincore.Value za = value a
            /\ zipkincore.Host za = a_host a
            /\ zipkincore.Timestamp za = Z.quot (timestamp a) 1000)
    /\ (forall i a,
          binaryAnnotations timeline_span !! i = Some a ->
          exists zb,
            bins !! i = Some (Some zb)
            /\ zipkincore.Key zb = key a
            /\ zipkincore.BinaryValue zb = b_value a
            /\ zipkincore.BinaryType zb = annotationType a
            /\ zipkincore.BinaryHost zb = b_host a)
    /\ zipkincore.TraceId zs = traceID timeline_span
    /\ zipkincore.Name zs = methodName timeline_span
    /\ zipkincore.Id zs = spanID timeline_span
    /\ zipkincore.Debug zs = debug timeline_span.
Proof.
  apply (Encode_wire timeline_world 0 timeline_span). reflexivity.
Defined.

Lemma NewChildSpan_child_witness :
  exists c f w' child rest,
    NewChildSpan (env := example_env) example_ctx (Some 0%nat) "query"
      [ServerAddr "db:5432" "postgres";
       Custom [call_Annotate "prepared"; call_Sample];
       Debug false]
      timeline_world
    = Ok (Some c, f) w'
    /\ spans w' !! c = Some child
    /\ traceID child = 1
    /\ parentSpanID child = 3
    /\ runSampler child = true
    /\ annotations child
       = mk_annotation 1700000000000004500 "cs" (Some 1%nat) :: rest
    /\ sampled child = true
    /\ debug child = false
    /\ (no_Host_resolves (env := example_env)
          [ServerAddr "db:5432" "postgres";
           Custom [call_Annotate "prepared"; call_Sample];
           Debug false] ->
        host child = Some 1%nat).
Proof.
  apply (NewChildSpan_child (env := example_env) example_ctx (Some 0%nat)
           "query"
           [ServerAddr "db:5432" "postgres";
            Custom [call_Annotate "prepared"; call_Sample];
            Debug false]
           timeline_world 0 timeline_span).
  - reflexivity.
  - reflexivity.
Defined.

(** C1, as stated, fails: with the options [Host], whose endpoint
    resolves, and [Debug(false)], and a function of the caller that calls
    [Sample], the child that [NewChildSpan] returns for the span of the
    timeline world has neither the host, nor the debug flag, nor the
    sampled flag of that parent. *)
Lemma NewChildSpan_options_override :
  exists c f w' child,
    NewChildSpan (env := example_env) example_ctx (Some 0%nat) "query"
      [Host "db:5432" "postgres"; Debug false; Custom [call_Sample]]
      timeline_world
    = Ok (Some c, f) w'
    /\ spans w' !! c = Some child
    /\ host child <> host timeline_span
    /\ debug child <> debug timeline_span
    /\ sampled child <> sampled timeline_span.
Proof.
  eexists _, _, _, _. split; [vm_compute; reflexivity|].
  split; [reflexivity|]. conjuncts; discriminate.
Qed.

Lemma finalize_collects_once_witness :
  exists c f w1 child w2 child2,
    NewChildSpan (env := example_env) example_ctx (Some 0%nat) "query"
      [Host "db:5432" "postgres"; Custom [call_Annotate "prepared"]]
      annotated_world
    = Ok (Some c, f) w1
    /\ spans w1 !! c = Some child
    /\ call_CollectFunc (env := example_env) f w1 = Ok tt w2
    /\ spans w2 !! c = Some child2
    /\ annotations child2
       = annotations child ++
         [mk_annotation (clock (Env := example_env) (ticks w1))
            (ClientReceive (Env := example_env)) (host child)]
    /\ same_but_annotations child child2
    /\ collected w2 = collected w1 ++ [(0%nat, Some c)]
    /\ ticks w2 = S (ticks w1)
    /\ call_CollectFunc (env := example_env) f w2 = Ok tt w2
    /\ (call_CollectFunc (env := example_env) f;;
        call_CollectFunc (env := example_env) f) w1 = Ok tt w2
    /\ (forall n, call_times (env := example_env) (S n) f w1 = Ok tt w2).
Proof.
  apply (finalize_collects_once (env := example_env) example_ctx 0 "query"
           [Host "db:5432" "postgres"; Custom [call_Annotate "prepared"]]
           annotated_world 0 annotated_span).
  - reflexivity.
  - reflexivity.
Defined.

Lemma NewChildSpan_no_parent_witness :
  exists f,
    NewChildSpan (env := example_env) empty_ctx None "query" [Debug true]
      example_world
    = Ok (None, f) example_world
    /\ forall n w', call_times (env := example_env) n f w' = Ok tt w'.
Proof.
  apply (NewChildSpan_no_parent (env := example_env) empty_ctx None "query"
           [Debug true] example_world).
  reflexivity.
Defined.

Lemma annotations_keep_their_host_witness :
  exists w' s',
    perform_all (env := example_env)
      [do_Annotate "sr"; do_option (Host "db:5432" "postgres");
       do_option (ServerAddr "db:5432" "postgres"); do_Annotate "ss"]
      (Some 0%nat) annotated_world = Ok tt w'
    /\ spans w' !! 0%nat = Some s'
    /\ (forall i a,
          annotations annotated_span !! i = Some a ->
          exists a',
            annotations s' !! i = Some a'
            /\ a' = a
            /\ a_host a' = a_host a
            /\ forall e, endpoint_at annotated_world (a_host a) = Some e ->
                         endpoint_at w' (a_host a') = Some e)
    /\ (forall i a,
          binaryAnnotations annotated_span !! i = Some a ->
          exists a',
            binaryAnnotations s' !! i = Some a'
            /\ a' = a
            /\ b_host a' = b_host a
            /\ forall e, endpoint_at annotated_world (b_host a) = Some e ->
                         endpoint_at w' (b_host a') = Some e).
Proof.
  apply (annotations_keep_their_host (env := example_env)
           [do_Annotate "sr"; do_option (Host "db:5432" "postgres");
            do_option (ServerAddr "db:5432" "postgres"); do_Annotate "ss"]
           annotated_world 0 annotated_span).
  reflexivity.
Defined.

(** * More properties of the file *)

(** ** [makeEndpoint] *)

Lemma digit_not_sign (c : ascii) (d : Z) :
  strconv.digit c = Some d ->
  Ascii.eqb c "-" = false /\ Ascii.eqb c "+" = false.
Proof.
  intros H. split.
  - destruct (Ascii.eqb_spec c "-") as [->|]; [discriminate H|reflexivity].
  - destruct (Ascii.eqb_spec c "+") as [->|]; [discriminate H|reflexivity].
Qed.

Lemma digit_range (c : ascii) (d : Z) :
  strconv.digit c = Some d -> 0 <= d <= 9.
Proof.
  unfold strconv.digit.
  destruct (Z.leb_spec 48 (Z.of_N (N_of_ascii c)));
    destruct (Z.leb_spec (Z.of_N (N_of_ascii c)) 57); simpl;
    intros [= <-] || discriminate. lia.
Qed.

Lemma digits_nonneg (s : string) (acc n : Z) :
  strconv.digits s acc = Some n -> 0 <= acc -> 0 <= n.
Proof.
  revert acc. induction s as [|c s IH]; simpl; intros acc H Hacc.
  - injection H as <-. exact Hacc.
  - destruct (strconv.digit c) as [d|] eqn:E; [|discriminate].
    apply digit_range in E. apply (IH _ H). lia.
Qed.

(** What [ParseInt] returns fits the size asked for. *)
Lemma ParseInt10_range (s : string) (bitSize v : Z) :
  0 < bitSize ->
  strconv.ParseInt10 s bitSize = Some v -> in_int bitSize v.
Proof.
  intros Hbits.
  assert (0 < 2 ^ (bitSize - 1)) by (apply Z.pow_pos_nonneg; lia).
  unfold strconv.ParseInt10, in_int. destruct s as [|c s']; [discriminate|].
  set (neg := Ascii.eqb c "-").
  set (s1 := if Ascii.eqb c "+" || neg then s' else String c s').
  destruct s1 as [|c1 s1'] eqn:E1; [discriminate|].
  destruct (strconv.digits (String c1 s1') 0) as [un|] eqn:Ed; [|discriminate].
  apply digits_nonneg in Ed; [|lia].
  destruct neg; simpl.
  - destruct (Z.ltb_spec (2 ^ (bitSize - 1)) un); [discriminate|].
    intros [= <-]. lia.
  - destruct (Z.leb_spec (2 ^ (bitSize - 1)) un); [discriminate|].
    intros [= <-]. lia.
Qed.

Lemma byte_of_Z_of_byte (b : byte) : byte_of_Z (Z_of_byte b) = b.
Proof.
  unfold byte_of_Z, Z_of_byte.
  pose proof (Byte.to_N_bounded b) as Hb.
  rewrite Z.mod_small by lia. rewrite N2Z.id, Byte.of_to_N. reflexivity.
Qed.

Lemma byte_of_Z_mod (v : Z) (b : byte) :
  v mod 256 = Z_of_byte b -> byte_of_Z v = b.
Proof.
  intros H. rewrite <- (byte_of_Z_of_byte b). unfold byte_of_Z at 1 2.
  rewrite H. rewrite Z.mod_small; [reflexivity|].
  unfold Z_of_byte. pose proof (Byte.to_N_bounded b). lia.
Qed.

Lemma Z_of_byte_range (b : byte) : 0 <= Z_of_byte b < 256.
Proof. unfold Z_of_byte. pose proof (Byte.to_N_bounded b). lia. Qed.

(** Four bytes read as a big-endian integer and written back. *)
Lemma big_endian_32_Uint32 (a : list byte) (u : Z) :
  length a = 4%nat ->
  binary.Uint32 a = Some u ->
  0 <= u < 2 ^ 32 /\ big_endian_32 u = a.
Proof.
  destruct a as [|b0 [|b1 [|b2 [|b3 [|]]]]]; try discriminate.
  intros _. unfold binary.Uint32.
  pose proof (Z_of_byte_range b0). pose proof (Z_of_byte_range b1).
  pose proof (Z_of_byte_range b2). pose proof (Z_of_byte_range b3).
  rewrite (lor_shiftl_add (Z_of_byte b3)) by lia.
  rewrite (lor_shiftl_add _ _ 16) by lia.
  rewrite (lor_shiftl_add _ _ 24) by lia.
  intros [= <-]. split; [lia|].
  unfold big_endian_32. rewrite !Z.shiftr_div_pow2 by lia.
  f_equal; [|f_equal; [|f_equal; [|f_equal]]];
    apply byte_of_Z_mod; cbn; Z.div_mod_to_equations; lia.
Qed.

Lemma uint32_int32 (u : Z) : 0 <= u < 2 ^ 32 -> uint32 (int32 u) = u.
Proof.
  unfold uint32, int32. intros H. cbn in *. Z.div_mod_to_equations. lia.
Qed.

Lemma int32_range (u : Z) : in_int 32 (int32 u).
Proof.
  unfold in_int, int32. cbn. Z.div_mod_to_equations. lia.
Qed.

Lemma int16_id (v : Z) : in_int 16 v -> int16 v = v.
Proof.
  unfold in_int, int16. intros H. cbn in *. Z.div_mod_to_equations. lia.
Qed.

Lemma first_To4_skips (pre post : list (list byte)) (ip a : list byte) :
  Forall (fun x => net.To4 x = None) pre ->
  net.To4 ip = Some a ->
  first_To4 (pre ++ ip :: post) None = Some a.
Proof.
  intros Hpre Hip. induction Hpre as [|x pre Hx _ IH]; simpl.
  - rewrite Hip. reflexivity.
  - rewrite Hx. exact IH.
Qed.

Lemma first_To4_none (addrs : list (list byte)) :
  Forall (fun x => net.To4 x = None) addrs ->
  first_To4 addrs None = None.
Proof.
  induction 1 as [|x l Hx _ IH]; simpl; [reflexivity|].
  rewrite Hx. exact IH.
Qed.

Section Endpoints.

Context {env : Env}.

(** X1: a port of 32768 or more, written in decimal digits, makes
    [makeEndpoint] return [nil] without touching the world: the port is
    parsed as a signed integer of 16 bits. *)
Theorem makeEndpoint_rejects_high_port (hostport serviceName h p : string)
  (n : Z) (w : World) :
  SplitHostPort hostport = Some (h, p) ->
  strconv.digits p 0 = Some n ->
  32768 <= n ->
  makeEndpoint hostport serviceName w = Ok None w.
Proof.
  intros Hsplit Hd Hn. rewrite makeEndpoint_spec. unfold endpoint_of.
  rewrite Hsplit. simpl.
  assert (Hp : strconv.ParseInt10 p 16 = None).
  { unfold strconv.ParseInt10. destruct p as [|c p']; [reflexivity|].
    assert (Hc : exists d, strconv.digit c = Some d).
    { simpl in Hd. destruct (strconv.digit c); [eauto|discriminate]. }
    destruct Hc as [d Hc]. destruct (digit_not_sign _ _ Hc) as [-> ->].
    simpl orb. cbv iota. rewrite Hd.
    destruct (Z.leb_spec (2 ^ (16 - 1)) n) as [|Hlt]; [reflexivity|].
    cbn in Hlt. lia. }
  rewrite Hp. reflexivity.
Qed.

(** X2: when the host has an IPv4 address, [makeEndpoint] never panics
    and returns a new endpoint, the last of the heap, built from the first
    address of the lookup that [To4] accepts, whatever follows it: the
    field [Ipv4], written back as four big-endian bytes, is that address.
    Its port is the parsed one, which fits 16 signed bits, and its service
    name is the one given. *)
Theorem makeEndpoint_first_IPv4 (hostport serviceName h p : string)
  (portInt : Z) (pre post : list (list byte)) (ip a : list byte)
  (w : World) :
  SplitHostPort hostport = Some (h, p) ->
  strconv.ParseInt10 p 16 = Some portInt ->
  LookupIP h = Some (pre ++ ip :: post) ->
  Forall (fun x => net.To4 x = None) pre ->
  net.To4 ip = Some a ->
  exists e,
    makeEndpoint hostport serviceName w
    = Ok (Some (length (endpoints w)))
         (with_endpoints (endpoints w ++ [e]) w)
    /\ endpoints (with_endpoints (endpoints w ++ [e]) w) !! length (endpoints w)
       = Some e
    /\ endpoints w !! length (endpoints w) = None
    /\ big_endian_32 (uint32 (zipkincore.Ipv4 e)) = a
    /\ in_int 32 (zipkincore.Ipv4 e)
    /\ zipkincore.Port e = portInt
    /\ in_int 16 portInt
    /\ zipkincore.ServiceName e = serviceName.
Proof.
  intros Hsplit Hport Hlook Hpre Hip.
  pose proof (To4_length _ _ Hip) as Hlen.
  destruct (Uint32_of_four _ Hlen) as [u Hu].
  destruct (big_endian_32_Uint32 _ _ Hlen Hu) as [Hur Hback].
  assert (Hpr : in_int 16 portInt)
    by (apply (ParseInt10_range p); [lia|exact Hport]).
  rewrite makeEndpoint_spec. unfold endpoint_of.
  rewrite Hsplit. simpl. rewrite Hport. simpl. rewrite Hlook. simpl.
  rewrite (first_To4_skips _ _ _ _ Hpre Hip). simpl. rewrite Hu. simpl.
  eexists. split; [reflexivity|]. simpl. conjuncts.
  - apply list_lookup_middle. reflexivity.
  - apply lookup_ge_None. lia.
  - rewrite uint32_int32 by exact Hur. exact Hback.
  - apply int32_range.
  - apply int16_id, Hpr.
  - exact Hpr.
  - reflexivity.
Qed.

(** X3: when the lookup of the host returns no address that [To4]
    accepts (IPv6 addresses only, or no address at all), [makeEndpoint]
    returns [nil] and leaves the world as it was. *)
Theorem makeEndpoint_without_IPv4 (hostport serviceName h p : string)
  (addrs : list (list byte)) (w : World) :
  SplitHostPort hostport = Some (h, p) ->
  LookupIP h = Some addrs ->
  Forall (fun x => net.To4 x = None) addrs ->
  makeEndpoint hostport serviceName w = Ok None w.
Proof.
  intros Hsplit Hlook Hall. rewrite makeEndpoint_spec. unfold endpoint_of.
  rewrite Hsplit. simpl.
  destruct (strconv.ParseInt10 p 16); simpl; [|reflexivity].
  rewrite Hlook. simpl. rewrite (first_To4_none _ Hall). reflexivity.
Qed.

End Endpoints.

(** ** [NewSpan], [MakeNewSpanFunc] and the flags *)

Section Constructors.

Context {env : Env}.

(** X4: [NewSpan] never panics, also when the endpoint does not resolve.
    It returns a new span, the last of the heap, with the ids and the
    method name given, no annotation, [runSampler] set and [debug] and
    [sampled] unset, and leaves the spans there were as they are.  The
    host of the span is [nil] when the endpoint does not resolve, and a
    new endpoint when it does. *)
Theorem NewSpan_fresh (hostport serviceName m : string) (t sid pid : Z)
  (w : World) :
  exists w' s,
    NewSpan hostport serviceName m t sid pid w
    = Ok (Some (length (spans w))) w'
    /\ spans w' = spans w ++ [s]
    /\ s = mk_Span (host s) m t sid pid [] [] false false true
    /\ match endpoint_of hostport serviceName with
       | Some e =>
           endpoint_at w (host s) = None
           /\ endpoint_at w' (host s) = Some e
           /\ endpoints w' = endpoints w ++ [e]
       | None => host s = None /\ endpoints w' = endpoints w
       end
    /\ vars w' = vars w
    /\ ticks w' = ticks w
    /\ drawn w' = drawn w
    /\ collected w' = collected w.
Proof.
  unfold NewSpan, bind. rewrite makeEndpoint_spec.
  destruct (endpoint_of hostport serviceName) as [e|];
    eexists _, _; (split; [reflexivity|]); simpl;
    conjuncts; try reflexivity; simpl.
  - apply lookup_ge_None. lia.
  - apply list_lookup_middle. reflexivity.
Qed.

(** X5: the function that [MakeNewSpanFunc] returns builds a new span at
    each call, and resolves the endpoint again at each call: two spans it
    makes are two objects with the method name given, and they never share
    an endpoint object (their hosts are the same pointer only when both
    are [nil]). *)
Theorem MakeNewSpanFunc_resolves_each_time (hostport serviceName m : string)
  (t1 sid1 pid1 t2 sid2 pid2 : Z) (w : World) :
  exists a b w' sa sb,
    (let! a := MakeNewSpanFunc hostport serviceName m t1 sid1 pid1 in
     let! b := MakeNewSpanFunc hostport serviceName m t2 sid2 pid2 in
     ret (a, b)) w = Ok (Some a, Some b) w'
    /\ a <> b
    /\ spans w !! a = None
    /\ spans w !! b = None
    /\ spans w' !! a = Some sa
    /\ spans w' !! b = Some sb
    /\ methodName sa = m
    /\ methodName sb = m
    /\ spanID sa = sid1
    /\ spanID sb = sid2
    /\ (host sa = host sb -> host sa = None)
    /\ endpoint_at w (host sa) = None
    /\ endpoint_at w (host sb) = None.
Proof.
  unfold MakeNewSpanFunc, NewSpan, bind.
  rewrite !makeEndpoint_spec.
  destruct (endpoint_of hostport serviceName) as [e|] eqn:He; simpl;
    rewrite makeEndpoint_spec, He; simpl;
    (eexists _, _, _, _, _; split; [reflexivity|]); simpl;
    rewrite ?length_app; simpl;
    (split; [lia|]);
    (split; [apply lookup_ge_None; lia|]);
    (split; [apply lookup_ge_None; lia|]);
    (split; [rewrite lookup_app_l by (rewrite ?length_app; simpl; lia);
             apply list_lookup_middle; reflexivity|]);
    (split; [apply list_lookup_middle; rewrite ?length_app; simpl; lia|]);
    simpl; conjuncts; try reflexivity;
    try (apply lookup_ge_None; lia).
  intros [= H]. lia.
Qed.


End Constructors.

(** ** The annotations *)

Section Annotations.

Context {env : Env}.

(** X7: the span that [NewChildSpan] returns for a context without a
    span is [nil], and must not be used: every method of the span, the
    option [Debug] and [Encode] panic on it. *)
Theorem nil_span_panics (ctx : Context) (collector : Collector)
  (m : string) (options : list SpanOption) (op : Operation) (w : World) :
  snd (FromContext ctx) = false ->
  reads_span_first op = true ->
  (let! r := NewChildSpan ctx collector m options in perform op (fst r)) w
  = Panic
  /\ (let! r := NewChildSpan ctx collector m options in Encode (fst r)) w
     = Panic.
Proof.
  intros Hctx Hop. unfold bind, NewChildSpan, FromContext in *.
  destruct (ambient ctx); [discriminate|]. simpl. split; [|reflexivity].
  destruct op as [v|k v|k v| | |[hp sn|hp sn|d|body]]; try discriminate;
    try reflexivity.
  cbn [perform fst]. unfold AnnotateBinary, bind, or_panic.
  destruct (type_switch_total v) as [[a b] ->]. reflexivity.
Qed.

(** The world after a run of calls of [Annotate]. *)
Lemma Annotate_run (values : list string) (w : World) (l : nat) (s : Span) :
  spans w !! l = Some s ->
  exists w',
    perform_all (map do_Annotate values) (Some l) w = Ok tt w'
    /\ spans w'
       = <[l := with_annotations
                  (annotations s ++
                     imap (fun i v =>
                             mk_annotation (clock (ticks w + i)) v (host s))
                       values)
                  s]> (spans w)
    /\ ticks w' = (ticks w + length values)%nat
    /\ endpoints w' = endpoints w
    /\ vars w' = vars w
    /\ drawn w' = drawn w
    /\ collected w' = collected w.
Proof.
  revert w s. induction values as [|v rest IH]; intros w s H.
  - exists w. split; [reflexivity|]. simpl. conjuncts; try reflexivity.
    + rewrite app_nil_r. symmetry. apply list_insert_id.
      rewrite H. destruct s; reflexivity.
    + lia.
  - pose proof (lookup_lt_Some _ _ _ H) as Hl.
    set (s1 := with_annotations
                 (annotations s ++ [mk_annotation (clock (ticks w)) v (host s)])
                 s).
    set (w1 := with_spans (<[l := s1]> (spans w))
                 (with_ticks (S (ticks w)) w)).
    assert (H1 : spans w1 !! l = Some s1)
      by (apply list_lookup_insert_eq, Hl).
    destruct (IH w1 s1 H1) as (w' & Hrun & Hs & Ht & He & Hv & Hd & Hc).
    exists w'. split.
    { cbn [map perform_all perform]. unfold bind.
      rewrite (Annotate_at _ _ _ _ H). exact Hrun. }
    conjuncts; try assumption.
    + rewrite Hs. unfold w1, s1. simpl. rewrite list_insert_insert_eq.
      f_equal. unfold with_annotations. simpl. f_equal.
      rewrite <- app_assoc. simpl. rewrite Nat.add_0_r.
      f_equal. f_equal. apply imap_ext. intros i x _. simpl.
      f_equal. f_equal. lia.
    + rewrite Ht. simpl. lia.
Qed.

(** X8: a run of calls of [Annotate] on a span that is there never
    panics.  The span afterwards has one more annotation for each value,
    in the order of the calls, after those it had: the annotation of the
    call number [i] has the clock reading number [i] from the start of
    the run as its time and the host of the span as its host.  Nothing
    else of the span changes, no other span changes, and the clock has
    been read once for each value. *)
Theorem Annotate_timeline (values : list string) (w : World) (l : nat)
  (s : Span) :
  spans w !! l = Some s ->
  exists w' s',
    perform_all (map do_Annotate values) (Some l) w = Ok tt w'
    /\ spans w' !! l = Some s'
    /\ annotations s'
       = annotations s ++
         imap (fun i v => mk_annotation (clock (ticks w + i)) v (host s))
           values
    /\ same_but_annotations s s'
    /\ (forall l', l' <> l -> spans w' !! l' = spans w !! l')
    /\ ticks w' = (ticks w + length values)%nat
    /\ endpoints w' = endpoints w
    /\ vars w' = vars w
    /\ drawn w' = drawn w
    /\ collected w' = collected w.
Proof.
  intros H. pose proof (lookup_lt_Some _ _ _ H) as Hl.
  destruct (Annotate_run values w l s H)
    as (w' & Hrun & Hs & Ht & He & Hv & Hd & Hc).
  eexists w', _. split; [exact Hrun|].
  split; [rewrite Hs; apply list_lookup_insert_eq, Hl|].
  conjuncts; try assumption; try reflexivity.
  - unfold same_but_annotations. simpl. conjuncts; reflexivity.
  - intros l' Hne. rewrite Hs. apply list_lookup_insert_ne. congruence.
Qed.

(** X9: [AnnotateString] does what [AnnotateBinary] does for a value that
    is a string, on every span pointer and in every world. *)
Theorem AnnotateString_is_AnnotateBinary (s : option nat) (k v : string)
  (w : World) :
  AnnotateString s k v w = AnnotateBinary s k (V_string v) w.
Proof. reflexivity. Qed.

(** X10: for every value, [AnnotateBinary] on a span that is there never
    panics.  The span afterwards has one more binary annotation, the
    last, with the key given and the host of the span; nothing else of
    the span, no other span and nothing else of the world changes.  The
    type of the annotation is never I16; its value has one byte for BOOL,
    four or eight bytes for I32, and eight bytes for I64 and DOUBLE. *)
Theorem AnnotateBinary_appends_one (w : World) (l : nat) (s : Span)
  (k : string) (x : Value) :
  spans w !! l = Some s ->
  exists w' s' a,
    AnnotateBinary (Some l) k x w = Ok tt w'
    /\ spans w' !! l = Some s'
    /\ binaryAnnotations s' = binaryAnnotations s ++ [a]
    /\ key a = k
    /\ b_host a = host s
    /\ same_but_binaryAnnotations s s'
    /\ (forall l', l' <> l -> spans w' !! l' = spans w !! l')
    /\ endpoints w' = endpoints w
    /\ vars w' = vars w
    /\ ticks w' = ticks w
    /\ drawn w' = drawn w
    /\ collected w' = collected w
    /\ annotationType a <> zipkincore.AnnotationType_I16
    /\ (annotationType a = AnnotationType_BOOL -> length (b_value a) = 1%nat)
    /\ (annotationType a = AnnotationType_I32 ->
        length (b_value a) = 4%nat \/ length (b_value a) = 8%nat)
    /\ (annotationType a = AnnotationType_I64 -> length (b_value a) = 8%nat)
    /\ (annotationType a = AnnotationType_DOUBLE ->
        length (b_value a) = 8%nat).
Proof.
  intros H.
  assert (Htable : exists a b,
    type_switch x = Some (a, b)
    /\ a <> zipkincore.AnnotationType_I16
    /\ (a = AnnotationType_BOOL -> length b = 1%nat)
    /\ (a = AnnotationType_I32 -> length b = 4%nat \/ length b = 8%nat)
    /\ (a = AnnotationType_I64 -> length b = 8%nat)
    /\ (a = AnnotationType_DOUBLE -> length b = 8%nat)).
  { destruct x as [[]| | | | | | | | | | | | | | |];
      eexists _, _; (split; [reflexivity|]);
      conjuncts; try discriminate; intros _; try reflexivity;
      solve [left; reflexivity | right; reflexivity]. }
  destruct Htable as (a & b & Hsw & HI16 & Hbool & H32 & H64 & Hdouble).
  destruct (AnnotateBinary_result w l s k x a b Hsw H)
    as (w' & s' & Hrun & Hs' & Hbin & Hsame & Hothers & He & Hv & Ht & Hd
        & Hc).
  exists w', s', (mk_binaryAnnotation k b a (host s)).
  cbn [key annotationType b_host b_value].
  conjuncts; try assumption; reflexivity.
Qed.

(** X11: a value of type [int] or [uint] is cut to 32 bits: two values
    that differ by a multiple of 2^32 give the same annotation. *)
Theorem AnnotateBinary_truncates_native (s : option nat) (k : string)
  (v n : Z) (w : World) :
  AnnotateBinary s k (V_int (v + n * 2 ^ 32)) w
  = AnnotateBinary s k (V_int v) w
  /\ AnnotateBinary s k (V_uint (v + n * 2 ^ 32)) w
     = AnnotateBinary s k (V_uint v) w.
Proof.
  assert (Hu : uint32 (v + n * 2 ^ 32) = uint32 v)
    by (unfold uint32; apply Z.mod_add; lia).
  unfold AnnotateBinary, type_switch. rewrite Hu. split; reflexivity.
Qed.

(** X12: the annotation of an integer of at most 32 bits does not record
    its type: two such values, of whatever types, that are equal modulo
    2^32 give the same annotation. *)
Theorem AnnotateBinary_forgets_signedness (s : option nat) (k : string)
  (x y : Value) (sx sy : bool) (bx by' vx vy : Z) (w : World) :
  small_integer x sx bx vx ->
  small_integer y sy by' vy ->
  uint32 vx = uint32 vy ->
  AnnotateBinary s k x w = AnnotateBinary s k y w.
Proof.
  intros Hx Hy Hu. unfold AnnotateBinary.
  replace (type_switch y) with (type_switch x); [reflexivity|].
  destruct Hx, Hy; unfold type_switch; rewrite Hu; reflexivity.
Qed.

End Annotations.

(** ** The host of later annotations *)

Section LaterAnnotations.

Context {env : Env}.

(** X14: after the option [Host], the next annotation of the span is
    stamped with the new endpoint when the endpoint resolves, and with
    the host the span had when it does not; the annotations the span had
    are before it, as they were. *)
Theorem Host_stamps_later_annotations (hostport serviceName v : string)
  (w : World) (l : nat) (s : Span) :
  spans w !! l = Some s ->
  exists w' s' a,
    (call_option (Host hostport serviceName) (Some l);;
     Annotate (Some l) v) w = Ok tt w'
    /\ spans w' !! l = Some s'
    /\ annotations s' = annotations s ++ [a]
    /\ value a = v
    /\ a_host a = host s'
    /\ match endpoint_of hostport serviceName with
       | Some e =>
           endpoint_at w (a_host a) = None
           /\ endpoint_at w' (a_host a) = Some e
       | None => a_host a = host s /\ endpoints w' = endpoints w
       end.
Proof.
  intros H. pose proof (lookup_lt_Some _ _ _ H) as Hl. unfold bind.
  destruct (endpoint_of hostport serviceName) as [e|] eqn:He.
  - rewrite (Host_resolved _ _ _ _ _ _ He H).
    erewrite Annotate_at by (simpl; apply list_lookup_insert_eq, Hl).
    eexists _, _, _. split; [reflexivity|]. simpl.
    rewrite list_lookup_insert_eq by (rewrite length_insert; exact Hl).
    split; [reflexivity|]. simpl. conjuncts; try reflexivity.
    + apply lookup_ge_None. lia.
    + apply list_lookup_middle. reflexivity.
  - rewrite (Host_unresolved _ _ _ _ He), (Annotate_at _ _ _ _ H).
    eexists _, _, _. split; [reflexivity|]. simpl.
    rewrite list_lookup_insert_eq by exact Hl.
    split; [reflexivity|]. simpl. conjuncts; reflexivity.
Qed.

(** X15: after the option [ServerAddr], whether its endpoint resolves or
    not, the next annotation of the span is stamped with the host the
    span had before the option. *)
Theorem ServerAddr_leaves_later_annotations (hostport serviceName v : string)
  (w : World) (l : nat) (s : Span) :
  spans w !! l = Some s ->
  exists w' s' a,
    (call_option (ServerAddr hostport serviceName) (Some l);;
     Annotate (Some l) v) w = Ok tt w'
    /\ spans w' !! l = Some s'
    /\ annotations s' = annotations s ++ [a]
    /\ value a = v
    /\ a_host a = host s
    /\ host s' = host s.
Proof.
  intros H. pose proof (lookup_lt_Some _ _ _ H) as Hl. unfold bind.
  destruct (endpoint_of hostport serviceName) as [e|] eqn:He.
  - rewrite (ServerAddr_resolved _ _ _ _ _ _ He H).
    erewrite Annotate_at by (simpl; apply list_lookup_insert_eq, Hl).
    eexists _, _, _. split; [reflexivity|]. simpl.
    rewrite list_lookup_insert_eq by (rewrite length_insert; exact Hl).
    split; [reflexivity|]. simpl. conjuncts; reflexivity.
  - rewrite (ServerAddr_unresolved _ _ _ _ He), (Annotate_at _ _ _ _ H).
    eexists _, _, _. split; [reflexivity|]. simpl.
    rewrite list_lookup_insert_eq by exact Hl.
    split; [reflexivity|]. simpl. conjuncts; reflexivity.
Qed.

End LaterAnnotations.

(** ** Children, siblings and descendants *)

Section Relatives.

Context {env : Env}.

(** X16: for a parent span that the context carries, and options made by
    [ServerAddr], [Host] and [Debug], [NewChildSpan] returns a span that
    was not there before, and so is not the parent; it leaves every span
    that was there, the parent with them, as it was, and every variable
    too.  It reads the clock once, draws one id and does not call the
    collector. *)
Theorem NewChildSpan_leaves_spans (ctx : Context) (collector : Collector)
  (m : string) (options : list SpanOption) (w : World) (p : nat)
  (parent : Span) :
  FromContext ctx = (Some p, true) ->
  spans w !! p = Some parent ->
  forallb built_in options = true ->
  exists c f w',
    NewChildSpan ctx collector m options w = Ok (Some c, f) w'
    /\ spans w !! c = None
    /\ c <> p
    /\ is_Some (spans w' !! c)
    /\ (forall l s, spans w !! l = Some s -> spans w' !! l = Some s)
    /\ (forall x v, vars w !! x = Some v -> vars w' !! x = Some v)
    /\ ticks w' = S (ticks w)
    /\ drawn w' = S (drawn w)
    /\ collected w' = collected w.
Proof.
  intros Hctx Hp Hall.
  destruct (NewChildSpan_run ctx collector m options w p parent Hctx Hp)
    as (w' & child & Hrun & Hs & Hv & Hc & Hd & _ & _ & _ & _ & _ & Hb).
  destruct (Hb Hall) as [Ht _].
  pose proof (lookup_lt_Some _ _ _ Hp) as Hlt.
  eexists _, _, w'. split; [exact Hrun|]. conjuncts; try assumption.
  - apply lookup_ge_None. lia.
  - lia.
  - exists child. rewrite Hs. apply list_lookup_middle. reflexivity.
  - intros l s Hl. rewrite Hs. apply lookup_app_l_Some, Hl.
  - intros x v Hx. rewrite Hv. apply lookup_app_l_Some, Hx.
Qed.



End Relatives.

(** ** From the child to the wire *)

Section Timelines.

Context {env : Env}.


(** X20: [Encode] gives the time of an annotation in microseconds, cut
    towards zero: the time of the annotation lies within the microsecond
    that starts at the encoded time when it is not negative, and within
    the one that ends there when it is negative. *)
Theorem Encode_microseconds (w : World) (l i : nat) (s : Span)
  (a : annotation) :
  spans w !! l = Some s ->
  annotations s !! i = Some a ->
  exists zs anns za,
    Encode (Some l) w = Ok zs w
    /\ zipkincore.Annotations zs = Some anns
    /\ anns !! i = Some (Some za)
    /\ zipkincore.Value za = value a
    /\ zipkincore.Host za = a_host a
    /\ (0 <= timestamp a ->
        1000 * zipkincore.Timestamp za <= timestamp a
        < 1000 * zipkincore.Timestamp za + 1000)
    /\ (timestamp a < 0 ->
        1000 * zipkincore.Timestamp za - 1000 < timestamp a
        <= 1000 * zipkincore.Timestamp za).
Proof.
  intros H Hi. eexists _, _, _. split; [apply (Encode_at _ _ _ H)|].
  simpl. split; [reflexivity|]. split.
  { rewrite list_lookup_fmap, Hi. reflexivity. }
  simpl. conjuncts; try reflexivity; intros Ht;
    Z.quot_rem_to_equations; lia.
Qed.

(** X21: with options made by [ServerAddr], [Host] and [Debug], a child
    that is made, finished with the function [NewChildSpan] returned and
    then encoded gives a structure with the [traceID] of the parent, the
    method name given, the id that [newID] returned, the debug flag the
    options leave, and exactly two annotations, client-send then
    client-receive, timed by two successive readings of the clock.  Its
    [ParentId] is the [spanID] of the parent, and is absent when that
    [spanID] is 0. *)
Theorem child_on_the_wire (ctx : Context) (col : nat) (m : string)
  (options : list SpanOption) (w : World) (p : nat) (parent : Span) :
  FromContext ctx = (Some p, true) ->
  spans w !! p = Some parent ->
  forallb built_in options = true ->
  exists zs w' hc,
    (let! r := NewChildSpan ctx (Some col) m options in
     call_CollectFunc (snd r);;
     Encode (fst r)) w = Ok zs w'
    /\ zipkincore.TraceId zs = traceID parent
    /\ zipkincore.Name zs = m
    /\ zipkincore.Id zs = ids (drawn w)
    /\ zipkincore.Debug zs = debug_after options (debug parent)
    /\ zipkincore.ParentId zs
       = (if spanID parent =? 0 then None else Some (spanID parent))
    /\ zipkincore.Annotations zs
       = Some [Some (zipkincore.mkAnnotation
                       (Z.quot (clock (ticks w)) 1000) ClientSend
                       (host parent));
               Some (zipkincore.mkAnnotation
                       (Z.quot (clock (S (ticks w))) 1000) ClientReceive
                       hc)]
    /\ (no_Host_resolves options -> hc = host parent).
Proof.
  intros Hctx Hp Hall.
  destruct (NewChildSpan_run ctx (Some col) m options w p parent Hctx Hp)
    as (w1 & child & Hrun1 & Hs1 & Hv1 & _ & _ & _ & Hg1 & Hdb & _ & Hh
        & Hb).
  destruct (Hb Hall) as [Ht1 Han].
  destruct Hg1 as (Hm & Htr & Hid & Hpa & _). simpl in Hm, Htr, Hid, Hpa.
  assert (Hc : spans w1 !! length (spans w) = Some child)
    by (rewrite Hs1; apply list_lookup_middle; reflexivity).
  assert (Hx : vars w1 !! length (vars w) = Some (Some (length (spans w))))
    by (rewrite Hv1; apply list_lookup_middle; reflexivity).
  pose proof (call_collect_first w1 _ _ col child Hx Hc) as Hrun2.
  eexists _, _, (host child). split.
  { unfold bind. rewrite Hrun1. cbn [fst snd]. rewrite Hrun2.
    apply Encode_at. simpl. apply list_lookup_insert_eq.
    eapply lookup_lt_Some, Hc. }
  simpl. rewrite Han, Ht1, Hpa.
  conjuncts; solve [assumption | reflexivity].
Qed.

End Timelines.

(** ** These properties at work on the small worlds *)

Lemma makeEndpoint_rejects_high_port_witness :
  makeEndpoint (env := lab_env) "db:40000" "postgres" example_world
  = Ok None example_world.
Proof.
  apply (makeEndpoint_rejects_high_port (env := lab_env) "db:40000"
           "postgres" "db" "40000" 40000 example_world).
  - reflexivity.
  - reflexivity.
  - lia.
Defined.

Lemma makeEndpoint_first_IPv4_witness :
  exists e,
    makeEndpoint (env := lab_env) "dual:443" "web" example_world
    = Ok (Some 0%nat) (with_endpoints [e] example_world)
    /\ endpoints (with_endpoints [e] example_world) !! 0%nat = Some e
    /\ endpoints example_world !! 0%nat = None
    /\ big_endian_32 (uint32 (zipkincore.Ipv4 e)) = [xc0; x00; x02; x07]
    /\ in_int 32 (zipkincore.Ipv4 e)
    /\ zipkincore.Port e = 443
    /\ in_int 16 443
    /\ zipkincore.ServiceName e = "web"%string.
Proof.
  apply (makeEndpoint_first_IPv4 (env := lab_env) "dual:443" "web" "dual"
           "443" 443
           [[x20; x01; x0d; xb8; x00; x00; x00; x00;
             x00; x00; x00; x00; x00; x00; x00; x01]]
           [[x0a; x00; x00; x09]]
           [x00; x00; x00; x00; x00; x00; x00; x00;
            x00; x00; xff; xff; xc0; x00; x02; x07]
           [xc0; x00; x02; x07] example_world).
  - reflexivity.
  - reflexivity.
  - reflexivity.
  - repeat constructor.
  - reflexivity.
Defined.

Lemma makeEndpoint_without_IPv4_witness :
  makeEndpoint (env := lab_env) "v6only:80" "web" example_world
  = Ok None example_world.
Proof.
  apply (makeEndpoint_without_IPv4 (env := lab_env) "v6only:80" "web"
           "v6only" "80"
           [[x20; x01; x0d; xb8; x00; x00; x00; x00;
             x00; x00; x00; x00; x00; x00; x00; x01]]
           example_world).
  - reflexivity.
  - reflexivity.
  - repeat constructor.
Defined.


Lemma nil_span_panics_witness :
  (let! r := NewChildSpan (env := example_env) empty_ctx (Some 0%nat)
               "query" [] in
   perform (env := example_env) (do_Annotate "x") (fst r)) example_world
  = Panic
  /\ (let! r := NewChildSpan (env := example_env) empty_ctx (Some 0%nat)
                  "query" [] in
      Encode (fst r)) example_world
     = Panic.
Proof.
  apply (nil_span_panics (env := example_env) empty_ctx (Some 0%nat)
           "query" [] (do_Annotate "x") example_world).
  - reflexivity.
  - reflexivity.
Defined.

(** A function of the caller passed as an option,
    [func(s *Span) { s.Sample(); s.SetDebug(); s.Annotate("x") }]: the
    child of a parent that is not sampled is sampled, it has a second
    annotation after the client-send one, and the clock has been read
    twice; the child of a parent whose debug flag is not set has it set. *)
Example NewChildSpan_caller_option :
  (exists c f w' child,
     NewChildSpan (env := example_env) example_ctx None "query"
       [Custom [call_Sample; call_SetDebug; call_Annotate "x"]]
       timeline_world
     = Ok (Some c, f) w'
     /\ spans w' !! c = Some child
     /\ sampled timeline_span = false
     /\ sampled child = true
     /\ annotations child
        = [mk_annotation 1700000000000004500 "cs" (Some 1%nat);
           mk_annotation 1700000000000006000 "x" (Some 1%nat)]
     /\ ticks w' = (ticks timeline_world + 2)%nat)
  /\ (exists c f w' child,
        NewChildSpan (env := example_env) example_ctx None "query"
          [Custom [call_Sample; call_SetDebug; call_Annotate "x"]]
          example_world
        = Ok (Some c, f) w'
        /\ spans w' !! c = Some child
        /\ debug example_parent = false
        /\ debug child = true).
Proof.
  split; eexists _, _, _, _;
    (split; [vm_compute; reflexivity|]); conjuncts; reflexivity.
Qed.

Lemma Annotate_timeline_witness :
  exists w' s',
    perform_all (env := example_env) (map do_Annotate ["sr"; "ss"]%string)
      (Some 0%nat) annotated_world = Ok tt w'
    /\ spans w' !! 0%nat = Some s'
    /\ annotations s'
       = annotations annotated_span ++
         imap (fun i v =>
                 mk_annotation
                   (clock (Env := example_env) (ticks annotated_world + i))
                   v (host annotated_span))
           ["sr"; "ss"]%string
    /\ same_but_annotations annotated_span s'
    /\ (forall l', l' <> 0%nat ->
                   spans w' !! l' = spans annotated_world !! l')
    /\ ticks w' = (ticks annotated_world + 2)%nat
    /\ endpoints w' = endpoints annotated_world
    /\ vars w' = vars annotated_world
    /\ drawn w' = drawn annotated_world
    /\ collected w' = collected annotated_world.
Proof.
  apply (Annotate_timeline (env := example_env) ["sr"; "ss"]%string
           annotated_world 0 annotated_span).
  reflexivity.
Defined.

Lemma AnnotateBinary_appends_one_witness :
  exists w' s' a,
    AnnotateBinary (Some 0%nat) "ok" (V_bool true) annotated_world
    = Ok tt w'
    /\ spans w' !! 0%nat = Some s'
    /\ binaryAnnotations s' = binaryAnnotations annotated_span ++ [a]
    /\ key a = "ok"%string
    /\ b_host a = host annotated_span
    /\ same_but_binaryAnnotations annotated_span s'
    /\ (forall l', l' <> 0%nat ->
                   spans w' !! l' = spans annotated_world !! l')
    /\ endpoints w' = endpoints annotated_world
    /\ vars w' = vars annotated_world
    /\ ticks w' = ticks annotated_world
    /\ drawn w' = drawn annotated_world
    /\ collected w' = collected annotated_world
    /\ annotationType a <> zipkincore.AnnotationType_I16
    /\ (annotationType a = AnnotationType_BOOL -> length (b_value a) = 1%nat)
    /\ (annotationType a = AnnotationType_I32 ->
        length (b_value a) = 4%nat \/ length (b_value a) = 8%nat)
    /\ (annotationType a = AnnotationType_I64 -> length (b_value a) = 8%nat)
    /\ (annotationType a = AnnotationType_DOUBLE ->
        length (b_value a) = 8%nat).
Proof.
  apply (AnnotateBinary_appends_one annotated_world 0 annotated_span "ok"
           (V_bool true)).
  reflexivity.
Defined.

Lemma AnnotateBinary_forgets_signedness_witness :
  AnnotateBinary (Some 0%nat) "n" (V_int8 (-1)) example_world
  = AnnotateBinary (Some 0%nat) "n" (V_uint32 4294967295) example_world.
Proof.
  apply (AnnotateBinary_forgets_signedness (Some 0%nat) "n" (V_int8 (-1))
           (V_uint32 4294967295) true false 8 32 (-1) 4294967295
           example_world).
  - apply small_int8. unfold in_int. simpl. lia.
  - apply small_uint32. unfold in_uint. simpl. lia.
  - reflexivity.
Defined.

Lemma Host_stamps_later_annotations_witness :
  exists w' s' a,
    (call_option (env := lab_env) (Host "db:5432" "postgres") (Some 0%nat);;
     Annotate (env := lab_env) (Some 0%nat) "ss") annotated_world = Ok tt w'
    /\ spans w' !! 0%nat = Some s'
    /\ annotations s' = annotations annotated_span ++ [a]
    /\ value a = "ss"%string
    /\ a_host a = host s'
    /\ match endpoint_of (env := lab_env) "db:5432" "postgres" with
       | Some e =>
           endpoint_at annotated_world (a_host a) = None
           /\ endpoint_at w' (a_host a) = Some e
       | None =>
           a_host a = host annotated_span
           /\ endpoints w' = endpoints annotated_world
       end.
Proof.
  apply (Host_stamps_later_annotations (env := lab_env) "db:5432" "postgres"
           "ss" annotated_world 0 annotated_span).
  reflexivity.
Defined.

Lemma ServerAddr_leaves_later_annotations_witness :
  exists w' s' a,
    (call_option (env := lab_env) (ServerAddr "db:5432" "postgres")
       (Some 0%nat);;
     Annotate (env := lab_env) (Some 0%nat) "ss") annotated_world = Ok tt w'
    /\ spans w' !! 0%nat = Some s'
    /\ annotations s' = annotations annotated_span ++ [a]
    /\ value a = "ss"%string
    /\ a_host a = host annotated_span
    /\ host s' = host annotated_span.
Proof.
  apply (ServerAddr_leaves_later_annotations (env := lab_env) "db:5432"
           "postgres" "ss" annotated_world 0 annotated_span).
  reflexivity.
Defined.

Lemma NewChildSpan_leaves_spans_witness :
  exists c f w',
    NewChildSpan (env := lab_env) example_ctx (Some 0%nat) "query"
      [Host "db:5432" "postgres"; Debug true] annotated_world
    = Ok (Some c, f) w'
    /\ spans annotated_world !! c = None
    /\ c <> 0%nat
    /\ is_Some (spans w' !! c)
    /\ (forall l s, spans annotated_world !! l = Some s ->
                    spans w' !! l = Some s)
    /\ (forall x v, vars annotated_world !! x = Some v ->
                    vars w' !! x = Some v)
    /\ ticks w' = S (ticks annotated_world)
    /\ drawn w' = S (drawn annotated_world)
    /\ collected w' = collected annotated_world.
Proof.
  apply (NewChildSpan_leaves_spans (env := lab_env) example_ctx (Some 0%nat)
           "query" [Host "db:5432" "postgres"; Debug true] annotated_world
           0 annotated_span).
  - reflexivity.
  - reflexivity.
  - reflexivity.
Defined.




Lemma Encode_microseconds_witness :
  exists zs anns za,
    Encode (Some 0%nat) annotated_world = Ok zs annotated_world
    /\ zipkincore.Annotations zs = Some anns
    /\ anns !! 0%nat = Some (Some za)
    /\ zipkincore.Value za = "sr"%string
    /\ zipkincore.Host za = Some 0%nat
    /\ (0 <= 1700000000000000000 ->
        1000 * zipkincore.Timestamp za <= 1700000000000000000
        < 1000 * zipkincore.Timestamp za + 1000)
    /\ (1700000000000000000 < 0 ->
        1000 * zipkincore.Timestamp za - 1000 < 1700000000000000000
        <= 1000 * zipkincore.Timestamp za).
Proof.
  apply (Encode_microseconds annotated_world 0 0 annotated_span
           (mk_annotation 1700000000000000000 "sr" (Some 0%nat))).
  - reflexivity.
  - reflexivity.
Defined.

Lemma child_on_the_wire_witness :
  exists zs w' hc,
    (let! r := NewChildSpan (env := lab_env) example_ctx (Some 0%nat)
                 "query" [Debug true] in
     call_CollectFunc (env := lab_env) (snd r);;
     Encode (fst r)) example_world = Ok zs w'
    /\ zipkincore.TraceId zs = traceID example_parent
    /\ zipkincore.Name zs = "query"%string
    /\ zipkincore.Id zs = ids (Env := lab_env) (drawn example_world)
    /\ zipkincore.Debug zs = debug_after [Debug true] (debug example_parent)
    /\ zipkincore.ParentId zs
       = (if spanID example_parent =? 0 then None
          else Some (spanID example_parent))
    /\ zipkincore.Annotations zs
       = Some [Some (zipkincore.mkAnnotation
                       (Z.quot (clock (Env := lab_env)
                                  (ticks example_world)) 1000)
                       (ClientSend (Env := lab_env))
                       (host example_parent));
               Some (zipkincore.mkAnnotation
                       (Z.quot (clock (Env := lab_env)
                                  (S (ticks example_world))) 1000)
                       (ClientReceive (Env := lab_env))
                       hc)]
    /\ (no_Host_resolves (env := lab_env) [Debug true] ->
        hc = host example_parent).
Proof.
  apply (child_on_the_wire (env := lab_env) example_ctx 0 "query"
           [Debug true] example_world 0 example_parent).
  - reflexivity.
  - reflexivity.
  - reflexivity.
Defined.
